(** * Discussify backend: a shallow embedding of the controllers

    The development follows the three controllers of the repository
    ([Controllers/AuthController.js], [Controllers/communityController.js],
    [Controllers/postController.js]).  A request handler is a computation
    over an explicit [World] (the document store, the upload directory, the
    real-time channel) that may throw, exactly as an [async] function with a
    [try]/[catch] around awaited store calls. *)

From Stdlib Require Import ZArith Ascii String.
From stdpp Require Import base strings list gmap sorting.

#[local] Open Scope string_scope.
#[local] Open Scope list_scope.

(** ** Values shared by the controllers *)

(** A JavaScript [Error]: [error.name], [error.message] and the numeric
    [error.code] MongoDB attaches to a duplicate key. *)
Record Error := mkError {
  err_name : string;
  err_message : string;
  err_code : option Z;
  (** the messages of [error.errors], for a Mongoose validation error *)
  err_errors : list string
}.

Definition TypeError (msg : string) : Error := mkError "TypeError" msg None [].
Definition CastError (msg : string) : Error := mkError "CastError" msg None [].
Definition PlainError (msg : string) : Error := mkError "Error" msg None [].

(** [x || fallback] on strings: the empty string is falsy. *)
Definition or_else (x fallback : string) : string :=
  if String.eqb x "" then fallback else x.

(** [!x] for a body field that is a string or [undefined]. *)
Definition falsy (x : option string) : bool :=
  match x with
  | None => true
  | Some s => String.eqb s ""
  end.

(** The string behind a field once [falsy] has been ruled out. *)
Definition str (x : option string) : string := default "" x.

(** [interests] and [categories] arrive either as one string or as an array. *)
Inductive Multi :=
| One (s : string)
| Many (l : list string).

Definition falsy_multi (x : option Multi) : bool :=
  match x with
  | None => true
  | Some (One s) => String.eqb s ""
  | Some (Many _) => false
  end.

Inductive Visibility := public | private | hidden.

(** [visibility === 'private']. *)
Definition is_private (v : Visibility) : bool :=
  match v with
  | private => true
  | _ => false
  end.
Inductive Role := role_admin | role_member.
Inductive PostType := text | image | video.

Module User.
Record t := mk {
  _id : string;
  username : string;
  email : string;
  password : string;
  bio : string;
  profileImage : option string;
  interests : list string;
  isEmailVerified : bool;
  isActive : bool;
  joinedCommunities : list string;
  emailVerificationOTP : option string;
  otpExpires : option Z;
  resetPasswordToken : option string;
  resetPasswordExpires : option Z
}.

Definition set_reset (tok : option string) (exp : option Z) (u : t) : t :=
  mk (_id u) (username u) (email u) (password u) (bio u) (profileImage u)
     (interests u) (isEmailVerified u) (isActive u) (joinedCommunities u)
     (emailVerificationOTP u) (otpExpires u) tok exp.

Definition set_otp (code : option string) (exp : option Z) (u : t) : t :=
  mk (_id u) (username u) (email u) (password u) (bio u) (profileImage u)
     (interests u) (isEmailVerified u) (isActive u) (joinedCommunities u)
     code exp (resetPasswordToken u) (resetPasswordExpires u).

Definition set_password (p : string) (u : t) : t :=
  mk (_id u) (username u) (email u) p (bio u) (profileImage u)
     (interests u) (isEmailVerified u) (isActive u) (joinedCommunities u)
     (emailVerificationOTP u) (otpExpires u)
     (resetPasswordToken u) (resetPasswordExpires u).

Definition set_joined (l : list string) (u : t) : t :=
  mk (_id u) (username u) (email u) (password u) (bio u) (profileImage u)
     (interests u) (isEmailVerified u) (isActive u) l
     (emailVerificationOTP u) (otpExpires u)
     (resetPasswordToken u) (resetPasswordExpires u).
End User.

Module Community.
Record member := mkMember { user : string; role : Role }.

Record t := mk {
  _id : string;
  slug : string;
  name : string;
  description : string;
  categories : list string;
  coverImage : option string;
  visibility : Visibility;
  admin : string;
  members : list member;
  bannedUsers : list string;
  memberCount : Z;
  rules : list string;
  isActive : bool
}.

Definition set_members (ms : list member) (n : Z) (c : t) : t :=
  mk (_id c) (slug c) (name c) (description c) (categories c) (coverImage c)
     (visibility c) (admin c) ms (bannedUsers c) n (rules c) (isActive c).
End Community.

Module Post.
Record t := mk {
  community : string;
  author : string;
  content : string;
  title : string;
  type : PostType;
  images : list string;
  videoUrl : option string;
  isDeleted : bool;
  upvotes : gset string;
  createdAt : Z
}.

Definition set_upvotes (s : gset string) (p : t) : t :=
  mk (community p) (author p) (content p) (title p) (type p) (images p)
     (videoUrl p) (isDeleted p) s (createdAt p).
End Post.

Module Notification.
Record t := mk {
  user : string;
  type : string;
  title : string;
  message : string;
  data : list (string * string)
}.
End Notification.

(** ** Requests and responses *)

(** [req.file] as multer leaves it. *)
Record File := mkFile {
  path : string;
  filename : string;
  originalname : string;
  size : Z
}.

(** The fields the handlers destructure from [req.body]; an absent field is
    [undefined]. *)
Record Body := mkBody {
  b_username : option string;
  b_email : option string;
  b_password : option string;
  b_bio : option string;
  b_interests : option Multi;
  b_otp : option string;
  b_newPassword : option string;
  b_name : option string;
  b_description : option string;
  b_categories : option Multi;
  b_content : option string;
  b_communityId : option string;
  b_title : option string
}.

Definition no_body : Body :=
  mkBody None None None None None None None None None None None None None.

(** [req.user], set by the [protect] middleware on private routes. *)
Record ReqUser := mkReqUser { ru_id : string; ru_username : string }.

Definition nobody : ReqUser := mkReqUser "" "".

(** A request: body, staged file, authenticated user, the route parameter
    ([:idOrSlug], [:postId]) and whether the application holds a socket
    server under the key ['io'] ([req.app.get('io')] is [undefined]
    otherwise). *)
Record Request := mkRequest {
  body : Body;
  file : option File;
  user : ReqUser;
  param : string;
  app_io : bool
}.

(** A post as [Post.findById(..).populate('author', 'username profileImage')
    .lean()] returns it: the document, its id, and the author's public
    fields when the author still exists. *)
Record PopulatedPost := mkPopulated {
  pp_id : string;
  pp_post : Post.t;
  pp_author : option (string * option string)
}.

(** What [res.json] is given. *)
#[local] Unset Elimination Schemes.
Inductive Value :=
| VBool (b : bool)
| VNum (n : Z)
| VStr (s : string)
| VNull
| VStrs (l : list string)
| VPost (p : PopulatedPost)
| VCommunity (c : Community.t)
| VObj (fields : list (string * Value)).
#[local] Set Elimination Schemes.

Record Response := mkResponse {
  status : Z;
  json : list (string * Value)
}.

(** Reading one key of the response object. *)
Fixpoint field (k : string) (o : list (string * Value)) : option Value :=
  match o with
  | [] => None
  | (k', v) :: o' => if String.eqb k k' then Some v else field k o'
  end.

(** ** The world a handler runs in *)

(** The awaited store calls; any of them may reject. *)
Inductive DbOp :=
| UserFindOne | UserCreate | UserSave | UserFindByIdAndUpdate
| CommunityFindOne | CommunityFindById | CommunityCreate | CommunitySave
| PostCreate | PostFindById | PostSave
| NotificationCreate | NotificationInsertMany
| FsUnlink.

(** One [emit] on the socket server: room, event, payload. *)
Record Emitted := mkEmitted {
  room : string;
  event : string;
  payload : option PopulatedPost
}.

Record World := mkWorld {
  users : list User.t;
  communities : list Community.t;
  posts : gmap string Post.t;
  notifications : list Notification.t;
  (** paths of the files present in the upload directory *)
  disk : list string;
  (** what the socket server has broadcast so far *)
  emitted : list Emitted;
  (** [Date.now()] *)
  now : Z;
  (** the ids and one-time codes the environment will hand out next *)
  gen_oid : nat -> string;
  gen_otp : nat -> string;
  tick : nat;
  (** the store calls that reject in this run, with the error they raise *)
  faults : DbOp -> option Error
}.

Definition set_users (us : list User.t) (w : World) : World :=
  mkWorld us (communities w) (posts w) (notifications w) (disk w) (emitted w)
          (now w) (gen_oid w) (gen_otp w) (tick w) (faults w).
Definition set_communities (cs : list Community.t) (w : World) : World :=
  mkWorld (users w) cs (posts w) (notifications w) (disk w) (emitted w)
          (now w) (gen_oid w) (gen_otp w) (tick w) (faults w).
Definition set_posts (ps : gmap string Post.t) (w : World) : World :=
  mkWorld (users w) (communities w) ps (notifications w) (disk w) (emitted w)
          (now w) (gen_oid w) (gen_otp w) (tick w) (faults w).
Definition set_notifications (ns : list Notification.t) (w : World) : World :=
  mkWorld (users w) (communities w) (posts w) ns (disk w) (emitted w)
          (now w) (gen_oid w) (gen_otp w) (tick w) (faults w).
Definition set_disk (d : list string) (w : World) : World :=
  mkWorld (users w) (communities w) (posts w) (notifications w) d (emitted w)
          (now w) (gen_oid w) (gen_otp w) (tick w) (faults w).
Definition set_emitted (e : list Emitted) (w : World) : World :=
  mkWorld (users w) (communities w) (posts w) (notifications w) (disk w) e
          (now w) (gen_oid w) (gen_otp w) (tick w) (faults w).
Definition set_tick (n : nat) (w : World) : World :=
  mkWorld (users w) (communities w) (posts w) (notifications w) (disk w)
          (emitted w) (now w) (gen_oid w) (gen_otp w) n (faults w).
Definition set_now (t : Z) (w : World) : World :=
  mkWorld (users w) (communities w) (posts w) (notifications w) (disk w)
          (emitted w) t (gen_oid w) (gen_otp w) (tick w) (faults w).
Definition set_faults (f : DbOp -> option Error) (w : World) : World :=
  mkWorld (users w) (communities w) (posts w) (notifications w) (disk w)
          (emitted w) (now w) (gen_oid w) (gen_otp w) (tick w) f.

(** No store call rejects. *)
Definition healthy (w : World) : Prop := forall op, faults w op = None.

(** ** Computations that read and write the world and may throw *)

Inductive outcome (A : Type) :=
| Returned (a : A)
| Thrown (e : Error).
Arguments Returned {A} a.
Arguments Thrown {A} e.

Definition Eff (A : Type) : Type := World -> outcome A * World.

Definition ret {A} (a : A) : Eff A := fun w => (Returned a, w).
Definition throw {A} (e : Error) : Eff A := fun w => (Thrown e, w).
Definition bind {A B} (m : Eff A) (k : A -> Eff B) : Eff B :=
  fun w =>
    match m w with
    | (Returned a, w') => k a w'
    | (Thrown e, w') => (Thrown e, w')
    end.
(** [try { m } catch (error) { h error }]: what [m] wrote before it threw
    stays written. *)
Definition try_catch {A} (m : Eff A) (h : Error -> Eff A) : Eff A :=
  fun w =>
    match m w with
    | (Returned a, w') => (Returned a, w')
    | (Thrown e, w') => h e w'
    end.
Definition gets {A} (f : World -> A) : Eff A := fun w => (Returned (f w), w).
Definition modify (f : World -> World) : Eff unit := fun w => (Returned tt, f w).

(** An awaited store call: it rejects when the run says so. *)
Definition await {A} (op : DbOp) (m : Eff A) : Eff A :=
  fun w =>
    match faults w op with
    | Some e => (Thrown e, w)
    | None => m w
    end.

Declare Scope eff_scope.
Delimit Scope eff_scope with eff.
Notation "x <- m ;; k" := (bind m (fun x => k))
  (at level 100, m at next level, right associativity) : eff_scope.
Notation "m ;;; k" := (bind m (fun _ => k))
  (at level 100, right associativity) : eff_scope.
#[local] Open Scope eff_scope.

(** The response a handler sent and the world it left. *)
Definition sent (r : outcome Response * World) : option Response :=
  match fst r with
  | Returned x => Some x
  | Thrown _ => None
  end.
Definition after {A} (r : outcome A * World) : World := snd r.

Definition respond (code : Z) (o : list (string * Value)) : Eff Response :=
  ret (mkResponse code o).

(** ** What the controllers import from outside the repository

    Library functions and configuration the handlers call but do not define:
    [mongoose.Types.ObjectId.isValid] and the cast Mongoose applies to an id
    given as a string, the projections [populate] and [select] of a community
    query, [MAX_IMAGE_SIZE] of [config.js] (with its rendering in megabytes),
    [JSON.parse] on the [interests] field (the parsed value as an array, a
    single parsed item wrapped), the schema's slug hook, password hook and
    default visibility, [jwt.sign], [path.extname], [toLowerCase] and
    [API_BASE_URL]. *)
Class Platform := {
  ObjectId_isValid : string -> bool;
  ObjectId_cast : string -> string;
  populate : string * string -> Community.t -> Community.t;
  select : string -> Community.t -> Community.t;
  MAX_IMAGE_SIZE : Z;
  MAX_IMAGE_SIZE_MB : string;
  JSON_parse : string -> option (list string);
  slugify : string -> string;
  default_visibility : Visibility;
  hash : string -> string;
  jwt_sign : string -> string;
  path_extname : string -> string;
  toLowerCase : string -> string;
  API_BASE_URL : string
}.

(** ** Small pieces of the JavaScript standard library *)

(** A line terminator, which [.] of a regular expression does not match. *)
Definition is_newline (c : ascii) : bool :=
  Ascii.eqb c "010" || Ascii.eqb c "013".

(** [\..+] somewhere ahead on the same line: a dot followed by one more
    character, reached through characters [.+] can absorb. *)
Fixpoint dot_then_more (l : list ascii) : bool :=
  match l with
  | [] => false
  | c :: rest =>
      if is_newline c then false
      else (Ascii.eqb c "." &&
            match rest with
            | d :: _ => negb (is_newline d)
            | [] => false
            end)
           || dot_then_more rest
  end.

(** [.+\..+] from the character after the at-sign. *)
Definition domain_ok (l : list ascii) : bool :=
  match l with
  | [] => false
  | c :: rest => negb (is_newline c) && dot_then_more rest
  end.

(** [/.+@.+\..+/] found anywhere in the text. *)
Fixpoint email_search (l : list ascii) : bool :=
  match l with
  | [] => false
  | c :: tl =>
      match tl with
      | a :: rest =>
          (negb (is_newline c) && Ascii.eqb a "@" && domain_ok rest)
          || email_search tl
      | [] => false
      end
  end.

(** [email.match(/.+@.+\..+/)] is not [null]. *)
Definition email_matches (email : string) : bool :=
  email_search (list_ascii_of_string email).

(** [s.split(',')]. *)
Fixpoint split_commas (s : string) : list string :=
  match s with
  | EmptyString => [""]
  | String c s' =>
      if Ascii.eqb c "," then "" :: split_commas s'
      else match split_commas s' with
           | h :: t => String c h :: t
           | [] => [String c ""]
           end
  end.

Definition is_space (c : ascii) : bool :=
  Ascii.eqb c " " || Ascii.eqb c "009" || Ascii.eqb c "010"
  || Ascii.eqb c "011" || Ascii.eqb c "012" || Ascii.eqb c "013".

Fixpoint drop_spaces (l : list ascii) : list ascii :=
  match l with
  | c :: l' => if is_space c then drop_spaces l' else l
  | [] => []
  end.

(** [s.trim()]. *)
Definition trim (s : string) : string :=
  string_of_list_ascii
    (rev (drop_spaces (rev (drop_spaces (list_ascii_of_string s))))).

(** [s.substring(0, n)]. *)
Definition prefix (n : nat) (s : string) : string := String.substring 0 n s.

Section Controllers.
Context {P : Platform}.

(** A fresh id from the environment, as Mongoose draws one for a new
    document. *)
Definition fresh_oid : Eff string :=
  fun w => (Returned (gen_oid w (tick w)), set_tick (S (tick w)) w).

(** ** communityController.js *)

(** [Community.findOne(condition)]: the first document, in the collection's
    order, that satisfies the condition. *)
Definition Community_findOne (condition : Community.t -> bool)
  : Eff (option Community.t) :=
  await CommunityFindOne (gets (fun w => List.find condition (communities w))).

(** The two conditions [findCommunity] queries with: [{ _id: idOrSlug }],
    the string cast to an id, and [{ slug: idOrSlug }]. *)
Definition by_id (id : string) (c : Community.t) : bool :=
  String.eqb (Community._id c) (ObjectId_cast id).
Definition by_slug (s : string) (c : Community.t) : bool :=
  String.eqb (Community.slug c) s.

(** [query.populate(populateOptions)] and [query.select(selectOptions)],
    each applied only when the option is given. *)
Definition project (populateOptions : option (string * string))
  (selectOptions : option string) (c : Community.t) : Community.t :=
  let c := match populateOptions with Some o => populate o c | None => c end in
  match selectOptions with Some o => select o c | None => c end.

Definition executeQuery (populateOptions : option (string * string))
  (selectOptions : option string) (condition : Community.t -> bool)
  : Eff (option Community.t) :=
  c <- Community_findOne condition ;;
  ret (project populateOptions selectOptions <$> c).

(** [findCommunity] (communityController.js, lines 16-40). *)
Definition findCommunity (idOrSlug : string)
  (populateOptions : option (string * string)) (selectOptions : option string)
  : Eff (option Community.t) :=
  let isObjectId := ObjectId_isValid idOrSlug in
  community <-
    (if isObjectId
     then executeQuery populateOptions selectOptions (by_id idOrSlug)
     else ret None) ;;
  match community with
  | Some c => ret (Some c)
  | None => executeQuery populateOptions selectOptions (by_slug idOrSlug)
  end.

(** [document.save()] on a community: the stored document with the same id
    is replaced. *)
Definition replace_community (c x : Community.t) : Community.t :=
  if String.eqb (Community._id x) (Community._id c) then c else x.

Definition Community_save (c : Community.t) : Eff unit :=
  await CommunitySave
    (modify (fun w =>
       set_communities (map (replace_community c) (communities w)) w)).

(** Modelled from the spec: the instance methods of the Community model
    ([Models/Community.js] is not among the sources).  [isMember] and
    [isBanned] are the pure membership checks of section 4.2 against
    [members] and [bannedUsers]. *)
Definition isMember (c : Community.t) (userId : string) : bool :=
  existsb (fun m => String.eqb (Community.user m) userId) (Community.members c).
Definition isBanned (c : Community.t) (userId : string) : bool :=
  existsb (String.eqb userId) (Community.bannedUsers c).

(** Modelled from the spec: [addMember] of the Community model.  Section 4.2:
    it appends [{user, role: member}] to [members] and increments
    [memberCount] in one write of the community document; [joinCommunity]'s
    [catch] names the error it raises for a user who is a member already. *)
Definition addMember (c : Community.t) (userId : string) : Eff Community.t :=
  if isMember c userId then throw (PlainError "User is already a member")
  else
    let c' := Community.set_members
                (Community.members c ++ [Community.mkMember userId role_member])
                (Community.memberCount c + 1)%Z c in
    Community_save c' ;;;
    ret c'.

(** [Community.create(doc)]: the schema completes the document (id, slug,
    default visibility, empty ban list and rules, active); the unique index
    on name and slug rejects a duplicate with code 11000. *)
Definition Community_create (name description : string)
  (categories : list string) (coverImage : option string) (admin : string)
  (members : list Community.member) (memberCount : Z) : Eff Community.t :=
  await CommunityCreate
    (taken <- gets (fun w =>
        existsb (fun x => String.eqb (Community.name x) name
                          || String.eqb (Community.slug x) (slugify name))
                (communities w)) ;;
     if taken : bool
     then throw (mkError "MongoServerError" "E11000 duplicate key error"
                         (Some 11000%Z) [])
     else
       id <- fresh_oid ;;
       let c := Community.mk id (slugify name) name description categories
                  coverImage default_visibility admin members [] memberCount
                  [] true in
       modify (fun w => set_communities (communities w ++ [c]) w) ;;;
       ret c).

(** [UserModel.findByIdAndUpdate(userId, { $addToSet: { joinedCommunities:
    id } })]: the user with that id, if any, gains the id unless it holds it
    already. *)
Definition addToSet (x : string) (l : list string) : list string :=
  if existsb (String.eqb x) l then l else l ++ [x].

Definition User_addJoined (userId communityId : string) : Eff unit :=
  await UserFindByIdAndUpdate
    (modify (fun w =>
       set_users
         (map (fun u => if String.eqb (User._id u) userId
                        then User.set_joined
                               (addToSet communityId (User.joinedCommunities u)) u
                        else u)
              (users w)) w)).

(** [Array.isArray(categories) ? categories : [categories]]. *)
Definition as_array (x : option Multi) : list string :=
  match x with
  | Some (Many l) => l
  | Some (One s) => [s]
  | None => []
  end.

(** [createCommunity] (communityController.js, lines 167-233). *)
Definition createCommunity (req : Request) : Eff Response :=
  try_catch
    (let name := b_name (body req) in
     let description := b_description (body req) in
     let categories := b_categories (body req) in
     let userId := ru_id (user req) in
     if falsy name || falsy description || falsy_multi categories
     then respond 400 [("success", VBool false);
                       ("message", VStr "Please provide name, description, and categories.")]
     else
       let categoryArray := as_array categories in
       let coverImage :=
         match file req with
         | Some f => Some ("/uploads/" +:+ filename f)
         | None => None
         end in
       newCommunity <- Community_create (str name) (str description)
                         categoryArray coverImage userId
                         [Community.mkMember userId role_admin] 1 ;;
       User_addJoined userId (Community._id newCommunity) ;;;
       respond 201 [("success", VBool true);
                    ("message", VStr "Community created successfully.");
                    ("data", VCommunity newCommunity)])
    (fun error =>
       if bool_decide (err_code error = Some 11000%Z)
       then respond 400 [("success", VBool false);
                         ("message", VStr "A community with this name already exists.")]
       else if String.eqb (err_name error) "ValidationError"
       then respond 400 [("success", VBool false);
                         ("message", VStr (String.concat ", " (err_errors error)))]
       else respond 500 [("success", VBool false);
                         ("message", VStr "Server error during community creation.")]).

(** [joinCommunity] (communityController.js, lines 320-379). *)
Definition joinCommunity (req : Request) : Eff Response :=
  try_catch
    (let idOrSlug := param req in
     let userId := ru_id (user req) in
     community <- findCommunity idOrSlug None None ;;
     match community with
     | None => respond 404 [("success", VBool false);
                            ("message", VStr "Community not found.")]
     | Some community =>
         if isBanned community userId
         then respond 403 [("success", VBool false);
                           ("message", VStr "You are banned from joining this community.")]
         else if isMember community userId
         then respond 400 [("success", VBool false);
                           ("message", VStr "You are already a member of this community.")]
         else if is_private (Community.visibility community)
         then respond 403 [("success", VBool false);
                           ("message", VStr "This is a private community. Membership requires admin approval or a separate request process.")]
         else
           community <- addMember community userId ;;
           User_addJoined userId (Community._id community) ;;;
           respond 200 [("success", VBool true);
                        ("message", VStr ("Successfully joined community: "
                                          +:+ Community.name community));
                        ("data", VObj [("_id", VStr (Community._id community));
                                       ("slug", VStr (Community.slug community));
                                       ("memberCount", VNum (Community.memberCount community))])]
     end)
    (fun error =>
       if String.eqb (err_message error) "User is already a member"
       then respond 400 [("success", VBool false);
                         ("message", VStr (err_message error))]
       else respond 500 [("success", VBool false);
                         ("message", VStr "Server error while joining community.")]).

(** ** postController.js *)

(** [Community.findById(communityId)] with the id as the request gave it: a
    string that is no id is a cast error; otherwise the first community with
    that id. *)
Definition Community_findById (id : string) : Eff (option Community.t) :=
  if ObjectId_isValid id
  then await CommunityFindById
         (gets (fun w => List.find (by_id id) (communities w)))
  else throw (CastError "Cast to ObjectId failed").

Definition Notification_insertMany (ns : list Notification.t) : Eff unit :=
  await NotificationInsertMany
    (modify (fun w => set_notifications (notifications w ++ ns) w)).

(** The notification one member receives for a new post. *)
Definition post_notification (communityName authorUsername content : string)
  (communityId postId memberId : string) : Notification.t :=
  Notification.mk memberId "post"
    ("New Post in " +:+ communityName)
    (authorUsername +:+ " posted: " +:+ prefix 50 content +:+ "...")
    [("communityId", communityId); ("postId", postId)].

(** [notifyCommunityMembers] (postController.js, lines 14-37).  The
    projection [select('members name')] keeps the two fields read here. *)
Definition notifyCommunityMembers (postId : string) (post : Post.t)
  (communityId authorId authorUsername : string) : Eff unit :=
  try_catch
    (community <- Community_findById communityId ;;
     match community with
     | None => ret tt
     | Some community =>
         let memberIds :=
           map Community.user
             (List.filter (fun member =>
                        negb (String.eqb (Community.user member) authorId))
                     (Community.members community)) in
         let notifications :=
           map (post_notification (Community.name community) authorUsername
                  (Post.content post) communityId postId)
               memberIds in
         Notification_insertMany notifications
     end)
    (fun error => ret tt).

(** [Post.create(newPostData)]: the document is stored under a fresh id, with
    no votes and not deleted. *)
Definition Post_create (content community author title : string)
  (type : PostType) (images : list string) (videoUrl : option string)
  : Eff (string * Post.t) :=
  await PostCreate
    (id <- fresh_oid ;;
     t <- gets now ;;
     let p := Post.mk community author content title type images videoUrl
                false ∅ t in
     modify (fun w => set_posts (<[id := p]> (posts w)) w) ;;;
     ret (id, p)).

(** [Post.findById(id).populate('author', 'username profileImage').lean()]
    for the id of a loaded document. *)
Definition Post_findById_populated (id : string) : Eff (option PopulatedPost) :=
  await PostFindById
    (gets (fun w =>
       p ← posts w !! id;
       Some (mkPopulated id p
               ((fun u => (User.username u, User.profileImage u))
                  <$> List.find (fun u => String.eqb (User._id u) (Post.author p))
                        (users w))))).

(** [getIo(req).to(room).emit(event, payload)]: [req.app.get('io')] is
    [undefined] when the application holds no socket server, and reading
    [to] of it throws. *)
Definition emit (req : Request) (room event : string)
  (payload : option PopulatedPost) : Eff unit :=
  if app_io req
  then modify (fun w => set_emitted (emitted w ++ [mkEmitted room event payload]) w)
  else throw (TypeError "Cannot read properties of undefined (reading 'to')").

(** A call whose promise is not awaited: its writes reach the store, its
    result reaches no one. *)
Definition detached {A} (m : Eff A) : Eff unit :=
  fun w => (Returned tt, snd (m w)).

Definition json_post (p : option PopulatedPost) : Value :=
  match p with
  | Some p => VPost p
  | None => VNull
  end.

(** [createPost] (postController.js, lines 44-101). *)
Definition createPost (req : Request) : Eff Response :=
  try_catch
    (let content := b_content (body req) in
     let communityId := b_communityId (body req) in
     let title := b_title (body req) in
     let author := ru_id (user req) in
     if falsy content || falsy communityId
     then respond 400 [("success", VBool false);
                       ("message", VStr "Content and community ID are required.")]
     else
       let title := if falsy title then prefix 50 (str content) else str title in
       let '(type, images, videoUrl) :=
         match file req with
         | None => (text, [], None)
         | Some f =>
             let filePath := API_BASE_URL +:+ "/uploads/" +:+ filename f in
             let fileExtension := toLowerCase (path_extname (originalname f)) in
             if existsb (String.eqb fileExtension)
                  [".jpg"; ".jpeg"; ".png"; ".gif"; ".webp"]
             then (image, [filePath], None)
             else if existsb (String.eqb fileExtension) [".mp4"; ".mov"; ".webm"]
             then (video, [], Some filePath)
             else (image, [filePath], None)
         end in
       created <- Post_create (str content) (str communityId) author title
                    type images videoUrl ;;
       let '(newPostId, newPost) := created in
       populatedPost <- Post_findById_populated newPostId ;;
       emit req (str communityId) "newPost" populatedPost ;;;
       detached (notifyCommunityMembers newPostId newPost (str communityId)
                   (ru_id (user req)) (ru_username (user req))) ;;;
       respond 201 [("success", VBool true); ("post", json_post populatedPost)])
    (fun error =>
       respond 500 [("success", VBool false);
                    ("message", VStr (or_else (err_message error)
                                        "Failed to create post."))]).

(** [Post.findById(postId)] with the id as the route gave it. *)
Definition Post_findById (postId : string) : Eff (option Post.t) :=
  if ObjectId_isValid postId
  then await PostFindById (gets (fun w => posts w !! ObjectId_cast postId))
  else throw (CastError "Cast to ObjectId failed").

(** Modelled from the spec: [upvote] of the Post model ([Models/Post.js] is
    not among the sources).  Section 3: [upvotes] is a set of user ids and
    toggling adds the user if absent, removes it if present. *)
Definition toggle (userId : string) (s : gset string) : gset string :=
  if bool_decide (userId ∈ s) then s ∖ {[userId]} else s ∪ {[userId]}.

(** Modelled from the spec: [post.upvote(userId)] toggles the vote and saves
    the post. *)
Definition upvote (id : string) (post : Post.t) (userId : string) : Eff Post.t :=
  let post' := Post.set_upvotes (toggle userId (Post.upvotes post)) post in
  await PostSave (modify (fun w => set_posts (<[id := post']> (posts w)) w)) ;;;
  ret post'.

(** [togglePostVote] (postController.js, lines 142-168). *)
Definition togglePostVote (req : Request) : Eff Response :=
  try_catch
    (let postId := param req in
     let userId := ru_id (user req) in
     post <- Post_findById postId ;;
     match post with
     | None => respond 404 [("success", VBool false);
                            ("message", VStr "Post not found.")]
     | Some post =>
         let id := ObjectId_cast postId in
         post <- upvote id post userId ;;
         populatedPost <- Post_findById_populated id ;;
         emit req (Post.community post) "postUpdated" populatedPost ;;;
         respond 200 [("success", VBool true);
                      ("post", json_post populatedPost);
                      ("message", VStr "Vote updated successfully.")]
     end)
    (fun error =>
       respond 500 [("success", VBool false);
                    ("message", VStr (or_else (err_message error)
                                        "Failed to toggle vote."))]).

(** ** AuthController.js *)

(** [User.findOne(condition)]. *)
Definition User_findOne (condition : User.t -> bool) : Eff (option User.t) :=
  await UserFindOne (gets (fun w => List.find condition (users w))).

(** [user.save()]: the stored user with the same id is replaced. *)
Definition User_save (u : User.t) : Eff unit :=
  await UserSave
    (modify (fun w =>
       set_users
         (map (fun x => if String.eqb (User._id x) (User._id u) then u else x)
              (users w)) w)).

(** [User.create(doc)]: a new, unverified, active user under a fresh id; the
    schema's pre-save hook stores the hash of the password. *)
Definition User_create (username email password bio : string)
  (profileImage : option string) (interests : list string) : Eff User.t :=
  await UserCreate
    (id <- fresh_oid ;;
     let u := User.mk id username email (hash password) bio profileImage
                interests false true [] None None None None in
     modify (fun w => set_users (users w ++ [u]) w) ;;;
     ret u).

Definition Notification_create (n : Notification.t) : Eff unit :=
  await NotificationCreate
    (modify (fun w => set_notifications (notifications w ++ [n]) w)).

(** Ten minutes, in the milliseconds of [Date.now()]. *)
Definition TEN_MINUTES : Z := 600000.

(** A new random code from the environment. *)
Definition random_code : Eff string :=
  fun w => (Returned (gen_otp w (tick w)), set_tick (S (tick w)) w).

(** Modelled from the spec: the one-time-code methods of the User model
    ([Models/UserModel.js] is not among the sources).  Section 4.1,
    [generateOTP(purpose)]: a new random code is stored with an absolute
    expiry ten minutes ahead, overwriting any prior code for that purpose. *)
Definition getResetPasswordOTP (u : User.t) : Eff (string * User.t) :=
  code <- random_code ;;
  t <- gets now ;;
  ret (code, User.set_reset (Some code) (Some (t + TEN_MINUTES)%Z) u).

Definition generateOTP (u : User.t) : Eff (string * User.t) :=
  code <- random_code ;;
  t <- gets now ;;
  ret (code, User.set_otp (Some code) (Some (t + TEN_MINUTES)%Z) u).

(** Modelled from the spec: section 4.1, [verifyOTP(purpose, submittedCode)]
    is true only if a code exists, is unexpired, and matches exactly. *)
Definition verifyResetPasswordOTP (u : User.t) (otp : string) (t : Z) : bool :=
  match User.resetPasswordToken u, User.resetPasswordExpires u with
  | Some code, Some expires => String.eqb code otp && (t <? expires)%Z
  | _, _ => false
  end.

(** [forgotPassword] (AuthController.js, lines 16-67). *)
Definition forgotPassword (req : Request) : Eff Response :=
  try_catch
    (let email := b_email (body req) in
     if falsy email
     then respond 400 [("success", VBool false);
                       ("message", VStr "Please provide the registered email address.")]
     else
       user <- User_findOne (fun u => String.eqb (User.email u) (str email)) ;;
       match user with
       | None =>
           respond 200 [("success", VBool true);
                        ("message", VStr "If the account exists, a password reset code has been sent to your notifications.")]
       | Some user =>
           generated <- getResetPasswordOTP user ;;
           let '(resetOTP, user) := generated in
           User_save user ;;;
           Notification_create
             (Notification.mk (User._id user) "otp" "🔐 Password Reset Code"
                ("Your one-time code for password reset is: " +:+ resetOTP
                 +:+ ". This code will expire in 10 minutes.")
                [("otp", resetOTP); ("purpose", "password_reset")]) ;;;
           respond 200 [("success", VBool true);
                        ("message", VStr "Password reset code successfully sent to your notifications.");
                        ("otp", VStr resetOTP)]
       end)
    (fun error =>
       respond 500 [("success", VBool false);
                    ("message", VStr (or_else (err_message error)
                                        "Server error during password reset request."))]).

(** [resetPassword] (AuthController.js, lines 71-130). *)
Definition resetPassword (req : Request) : Eff Response :=
  try_catch
    (let email := b_email (body req) in
     let otp := b_otp (body req) in
     let newPassword := b_newPassword (body req) in
     if falsy email || falsy otp || falsy newPassword
     then respond 400 [("success", VBool false);
                       ("message", VStr "Please provide email, OTP, and the new password.")]
     else if (String.length (str newPassword) <? 6)%nat
     then respond 400 [("status", VStr "fail");
                       ("message", VStr "New password must be at least 6 characters long.")]
     else
       user <- User_findOne (fun u => String.eqb (User.email u) (str email)) ;;
       match user with
       | None => respond 404 [("success", VBool false);
                              ("message", VStr "User not found.")]
       | Some user =>
           t <- gets now ;;
           let isValid := verifyResetPasswordOTP user (str otp) t in
           if negb isValid
           then
             User_save (User.set_reset None None user) ;;;
             respond 400 [("success", VBool false);
                          ("message", VStr "Invalid or expired OTP. Please restart the forgot password process.")]
           else
             User_save (User.set_reset None None
                          (User.set_password (hash (str newPassword)) user)) ;;;
             respond 200 [("success", VBool true);
                          ("message", VStr "Password successfully reset! You can now log in with your new password.")]
       end)
    (fun error =>
       respond 500 [("success", VBool false);
                    ("message", VStr (or_else (err_message error)
                                        "Server error during password reset."))]).

(** The module bound to [fs] in AuthController.js is ['fs/promises']
    (line 4).  That module exports the promise-returning [unlink], which the
    handler's [catch] block awaits (line 285); it exports no [unlinkSync], so
    [fs.unlinkSync] is [undefined] and calling it throws a [TypeError]. *)
Definition fs_unlinkSync (path : string) : Eff unit :=
  throw (TypeError "fs.unlinkSync is not a function").

(** [fs.unlink(path)]: removes the file; rejects when there is none. *)
Definition fs_unlink (path : string) : Eff unit :=
  await FsUnlink
    (present <- gets (fun w => existsb (String.eqb path) (disk w)) ;;
     if present : bool
     then modify (fun w =>
            set_disk (List.filter (fun f => negb (String.eqb path f)) (disk w)) w)
     else throw (mkError "Error" "ENOENT: no such file or directory" None [])).

(** [if (req.file) fs.unlinkSync(req.file.path)]. *)
Definition unlink_staged_sync (req : Request) : Eff unit :=
  match file req with
  | Some f => fs_unlinkSync (path f)
  | None => ret tt
  end.

(** Lines 175-195: [interests] as an array of strings. *)
Definition prepare_interests (interests : option Multi) : list string :=
  match interests with
  | Some (Many l) => l
  | Some (One s) =>
      match JSON_parse s with
      | Some l => l
      | None =>
          List.filter (fun i => (0 <? String.length i)%nat)
                      (map trim (split_commas s))
      end
  | None => []
  end.

(** [register] (AuthController.js, lines 134-301). *)
Definition register (req : Request) : Eff Response :=
  try_catch
    (let username := b_username (body req) in
     let email := b_email (body req) in
     let password := b_password (body req) in
     let bio := b_bio (body req) in
     let interests := b_interests (body req) in
     match file req with
     | None =>
         respond 400 [("success", VBool false);
                      ("message", VStr "Please provide username, email, password, bio, and profile image")]
     | Some req_file =>
     if falsy username || falsy email || falsy password || falsy bio
        || falsy_multi interests
     then respond 400 [("success", VBool false);
                       ("message", VStr "Please provide username, email, password, bio, and profile image")]
     else if (String.length (str password) <? 6)%nat
     then
       unlink_staged_sync req ;;;
       respond 400 [("status", VStr "fail");
                    ("message", VStr "Password must be at least 6 characters long.")]
     else if negb (email_matches (str email))
     then
       unlink_staged_sync req ;;;
       respond 400 [("status", VStr "fail");
                    ("message", VStr "Invalid email format.")]
     else if (250 <? String.length (str bio))%nat
     then
       unlink_staged_sync req ;;;
       respond 400 [("status", VStr "fail");
                    ("message", VStr "Bio cannot exceed 250 characters.")]
     else if (MAX_IMAGE_SIZE <? size req_file)%Z
     then
       unlink_staged_sync req ;;;
       respond 400 [("status", VStr "fail");
                    ("message", VStr ("Image file size exceeds the "
                                      +:+ MAX_IMAGE_SIZE_MB +:+ "MB limit."))]
     else
       let userInterests := prepare_interests interests in
       existingUser <-
         User_findOne (fun u => String.eqb (User.email u) (str email)
                                || String.eqb (User.username u) (str username)) ;;
       match existingUser with
       | Some existingUser =>
           unlink_staged_sync req ;;;
           respond 400 [("success", VBool false);
                        ("message",
                         VStr (if String.eqb (User.email existingUser) (str email)
                               then "Email already registered"
                               else "Username already taken"))]
       | None =>
           let profileImagePath := Some ("uploads/" +:+ filename req_file) in
           user <- User_create (str username) (str email) (str password)
                     (str bio) profileImagePath userInterests ;;
           generated <- generateOTP user ;;
           let '(otp, user) := generated in
           User_save user ;;;
           Notification_create
             (Notification.mk (User._id user) "otp" "🔐 Email Verification OTP"
                ("Your OTP for email verification is: " +:+ otp
                 +:+ ". This code will expire in 10 minutes.")
                [("otp", otp); ("purpose", "email_verification")]) ;;;
           let token := jwt_sign (User._id user) in
           respond 201
             [("success", VBool true);
              ("message", VStr "Registration successful. Please check your notifications for OTP.");
              ("token", VStr token);
              ("user",
               VObj [("id", VStr (User._id user));
                     ("username", VStr (User.username user));
                     ("email", VStr (User.email user));
                     ("bio", VStr (User.bio user));
                     ("profileImage",
                      match User.profileImage user with
                      | Some p => VStr p
                      | None => VNull
                      end);
                     ("isEmailVerified", VBool (User.isEmailVerified user));
                     ("interests", VStrs userInterests);
                     ("otp", VStr otp)])]
       end
     end)
    (fun error =>
       match file req with
       | Some f => try_catch (fs_unlink (path f)) (fun err => ret tt)
       | None => ret tt
       end ;;;
       if String.eqb (err_name error) "ValidationError"
       then respond 400 [("success", VBool false);
                         ("message", VStr ("Validation error: "
                                           +:+ err_message error))]
       else respond 500 [("success", VBool false);
                         ("message", VStr (or_else (err_message error)
                                             "Server error during registration"))]).

End Controllers.

(** ** The invariant of the member counter *)

(** [memberCount] is the number of entries of [members]. *)
Definition count_ok (c : Community.t) : Prop :=
  Community.memberCount c = Z.of_nat (length (Community.members c)).

(** What a successful join makes of a community. *)
Definition joined (userId : string) (c : Community.t) : Community.t :=
  Community.set_members
    (Community.members c ++ [Community.mkMember userId role_member])
    (Community.memberCount c + 1)%Z c.

(** ** The recipients of a post notification *)

(** The members a new post of [authorId] is announced to: the [memberIds]
    of [notifyCommunityMembers]. *)
Definition others (authorId : string) (c : Community.t) : list string :=
  map Community.user
    (List.filter (fun member => negb (String.eqb (Community.user member) authorId))
       (Community.members c)).

(** ** Password reset: the requests and the answer the claims speak of *)

(** The 400 answer of [resetPassword] to an invalid or expired code. *)
Definition invalid_otp : Response :=
  mkResponse 400
    [("success", VBool false);
     ("message", VStr "Invalid or expired OTP. Please restart the forgot password process.")].

(** A [resetPassword] request that passes the two guards before the user is
    looked up: the three fields are present and the new password has at
    least six characters. *)
Definition well_formed (req : Request) : Prop :=
  falsy (b_email (body req)) = false
  /\ falsy (b_otp (body req)) = false
  /\ falsy (b_newPassword (body req)) = false
  /\ (6 <= String.length (str (b_newPassword (body req))))%nat.

(** The condition [{ email }] of [User.findOne]. *)
Definition has_email (e : option string) (u : User.t) : bool :=
  String.eqb (User.email u) (str e).

(** ** The remaining handlers of the three controllers *)


(** The array a listing handler puts under [data] or [posts]. *)
Inductive Items :=
| NoItems
| PostItems (l : list PopulatedPost)
| CommunityItems (l : list Community.t)
| DiscussionItems (l : list (string * option string)).

(** The answer of a listing handler: status, the keys of the response object
    other than the array, and the array. *)
Record Listing := mkListing {
  l_status : Z;
  l_json : list (string * Value);
  l_items : Items
}.

(** [parseInt(q) || d]: [NaN] (here [None]) and 0 are falsy. *)
Definition parsed_or (q : option Z) (d : Z) : Z :=
  match q with
  | Some n => if (n =? 0)%Z then d else n
  | None => d
  end.

(** [p] is a prefix of [s]; [p] occurs in [s]. *)
Fixpoint starts_with (p s : string) : bool :=
  match p, s with
  | EmptyString, _ => true
  | String a p', String b s' => Ascii.eqb a b && starts_with p' s'
  | String _ _, EmptyString => false
  end.
Fixpoint occurs_in (p s : string) : bool :=
  starts_with p s
  || match s with
     | String _ s' => occurs_in p s'
     | EmptyString => false
     end.

(** [allowedTypes.test(s)] for [/jpeg|jpg|png|gif|webp/] (upload middleware,
    appended to communityController.js, line 418). *)
Definition allowedTypes_test (s : string) : bool :=
  existsb (fun word => occurs_in word s) ["jpeg"; "jpg"; "png"; "gif"; "webp"].

(** The condition [{ _id }] of a user query by id. *)
Definition user_has_id (id : string) (u : User.t) : bool :=
  String.eqb (User._id u) id.

(** A user with the email marked verified and the verification code
    cleared. *)
Definition verified (u : User.t) : User.t :=
  User.mk (User._id u) (User.username u) (User.email u) (User.password u)
    (User.bio u) (User.profileImage u) (User.interests u) true
    (User.isActive u) (User.joinedCommunities u) None None
    (User.resetPasswordToken u) (User.resetPasswordExpires u).

(** Modelled from the spec: [verifyOTP] of the User model
    ([Models/UserModel.js] is not among the sources).  Section 4.1: true only
    if a code exists, is unexpired, and matches exactly. *)
Definition verifyOTP (u : User.t) (otp : string) (t : Z) : bool :=
  match User.emailVerificationOTP u, User.otpExpires u with
  | Some code, Some expires => String.eqb code otp && (t <? expires)%Z
  | _, _ => false
  end.

(** The posts of the collection with their ids, and the populated form of
    one of them. *)
Definition populated (us : list User.t) (entry : string * Post.t)
  : PopulatedPost :=
  mkPopulated entry.1 entry.2
    ((fun u => (User.username u, User.profileImage u))
       <$> List.find (fun u => String.eqb (User._id u) (Post.author entry.2)) us).

(** [{ community: communityId, isDeleted: false }]. *)
Definition live_in (communityId : string) (entry : string * Post.t) : bool :=
  String.eqb (Post.community entry.2) communityId
  && negb (Post.isDeleted entry.2).

(** [sort({ createdAt: -1 })]: newest first. *)
Definition newer (a b : string * Post.t) : Prop :=
  (Post.createdAt b.2 <= Post.createdAt a.2)%Z.

(** [sort({ memberCount: -1 })]: largest first. *)
Definition larger (a b : Community.t) : Prop :=
  (Community.memberCount b <= Community.memberCount a)%Z.

#[local] Instance newer_dec : RelDecision newer.
Proof. intros a b. unfold newer. apply _. Defined.
#[local] Instance larger_dec : RelDecision larger.
Proof. intros a b. unfold larger. apply _. Defined.

(** [Math.ceil(total / limit)] for a count and a positive limit. *)
Definition pages_of (total limit : nat) : nat :=
  (total + limit - 1) / limit.

Section Listings.
Context {P : Platform}.

(** [fileFilter] of the upload middleware (lines 416-429 of the text
    appended to communityController.js): true when the file is accepted. *)
Definition fileFilter (f : File) (mimetype : string) : bool :=
  let extname := allowedTypes_test (toLowerCase (path_extname (originalname f))) in
  let mimetype := allowedTypes_test mimetype in
  extname && mimetype.

(** [community.visibility === 'private' && (!req.user ||
    !community.isMember(req.user._id))]. *)
Definition shut_out (community : Community.t) (req_user : option ReqUser)
  : bool :=
  is_private (Community.visibility community)
  && match req_user with
     | None => true
     | Some u => negb (isMember community (ru_id u))
     end.

(** [getCommunityInformation] (communityController.js, lines 238-269).  The
    route is public: [req.user] may be [undefined]. *)
Definition getCommunityInformation (idOrSlug : string)
  (req_user : option ReqUser) : Eff Response :=
  try_catch
    (community <- findCommunity idOrSlug
                    (Some ("admin", "username avatar email"))
                    (Some "-bannedUsers") ;;
     match community with
     | None => respond 404 [("success", VBool false);
                            ("message", VStr "Community not found.")]
     | Some community =>
         if shut_out community req_user
         then respond 403 [("success", VBool false);
                           ("message", VStr "This community is private.")]
         else respond 200 [("success", VBool true);
                           ("data", VCommunity community)]
     end)
    (fun error =>
       respond 500 [("success", VBool false);
                    ("message", VStr "Server error fetching community information.")]).

(** [Post] in communityController.js is the mock object of lines 6-12, not
    the Post model: [Post.find(query)] returns an object whose one method is
    [sort], and [sort()] returns an object whose one method is [limit].  The
    handler calls [skip] on the latter; [skip] is [undefined] there, and the
    call throws. *)
Definition mock_find_sort_skip (community : string) (skip limit : Z)
  : Eff (list (string * option string)) :=
  throw (TypeError "Post.find(...).sort(...).skip is not a function").

(** [getAllDiscussionsInCommunity] (communityController.js, lines
    274-315); [page] and [limit] are [parseInt] of the query's fields. *)
Definition getAllDiscussionsInCommunity (idOrSlug : string)
  (req_user : option ReqUser) (page limit : option Z) : Eff Listing :=
  try_catch
    (let page := parsed_or page 1 in
     let limit := parsed_or limit 10 in
     let skip := ((page - 1) * limit)%Z in
     community <- findCommunity idOrSlug None None ;;
     match community with
     | None => ret (mkListing 404 [("success", VBool false);
                                   ("message", VStr "Community not found.")]
                      NoItems)
     | Some community =>
         if shut_out community req_user
         then ret (mkListing 403
                     [("success", VBool false);
                      ("message", VStr "Access denied. Join the community to see discussions.")]
                     NoItems)
         else
           posts <- mock_find_sort_skip (Community._id community) skip limit ;;
           ret (mkListing 200
                  [("success", VBool true);
                   ("community",
                    VObj [("_id", VStr (Community._id community));
                          ("name", VStr (Community.name community));
                          ("slug", VStr (Community.slug community))]);
                   ("page", VNum page);
                   ("limit", VNum limit)]
                  (DiscussionItems posts))
     end)
    (fun error =>
       ret (mkListing 500 [("success", VBool false);
                           ("message", VStr "Server error fetching discussions.")]
              NoItems)).

(** [Community.find(condition)] with its projections: every matching
    document in the collection's order.  A rejecting read of the community
    collection is filed under [CommunityFindOne]. *)
Definition Community_find (condition : Community.t -> bool)
  (populateOptions : option (string * string)) (selectOptions : option string)
  (arrange : list Community.t -> list Community.t)
  : Eff (list Community.t) :=
  await CommunityFindOne
    (gets (fun w =>
       map (project populateOptions selectOptions)
           (arrange (List.filter condition (communities w))))).

(** [{ 'members.user': userId, isActive: true, visibility: { $ne: 'hidden' }
    }]. *)
Definition joined_and_listed (userId : string) (c : Community.t) : bool :=
  existsb (fun m => String.eqb (Community.user m) userId) (Community.members c)
  && Community.isActive c
  && match Community.visibility c with
     | hidden => false
     | _ => true
     end.

(** [getUserCommunities] (communityController.js, lines 46-83). *)
Definition getUserCommunities (req_user : ReqUser) : Eff Listing :=
  try_catch
    (let userId := ru_id req_user in
     communities <- Community_find (joined_and_listed userId)
                      (Some ("admin", "username avatar"))
                      (Some "-bannedUsers -rules") (fun l => l) ;;
     match communities with
     | [] => ret (mkListing 200
                    [("success", VBool true);
                     ("message", VStr "You have not joined any communities yet.")]
                    (CommunityItems []))
     | _ => ret (mkListing 200
                   [("success", VBool true);
                    ("count", VNum (Z.of_nat (length communities)))]
                   (CommunityItems communities))
     end)
    (fun error =>
       ret (mkListing 500 [("success", VBool false);
                           ("message", VStr "Server error fetching user communities.")]
              NoItems)).

(** [{ categories: { $in: userInterests }, 'members.user': { $ne: userId },
    isActive: true, visibility: 'public' }]. *)
Definition recommendable (userId : string) (userInterests : list string)
  (c : Community.t) : bool :=
  existsb (fun category => existsb (String.eqb category) userInterests)
          (Community.categories c)
  && negb (existsb (fun m => String.eqb (Community.user m) userId)
                   (Community.members c))
  && Community.isActive c
  && match Community.visibility c with
     | public => true
     | _ => false
     end.

(** [getRecommendedCommunities] (communityController.js, lines 120-162);
    [userInterests] is [req.user.interests || []].  The query sorts before
    it limits, in whichever order the two are chained. *)
Definition getRecommendedCommunities (req_user : ReqUser)
  (userInterests : list string) : Eff Listing :=
  try_catch
    (let userId := ru_id req_user in
     match userInterests with
     | [] => ret (mkListing 200
                    [("success", VBool true);
                     ("message", VStr "No interests found. Please update your profile to get recommendations.")]
                    (CommunityItems []))
     | _ =>
         communities <- Community_find (recommendable userId userInterests)
                          (Some ("admin", "username avatar"))
                          (Some "-bannedUsers -rules -members")
                          (fun l => take 10 (merge_sort larger l)) ;;
         ret (mkListing 200
                [("success", VBool true);
                 ("count", VNum (Z.of_nat (length communities)))]
                (CommunityItems communities))
     end)
    (fun error =>
       ret (mkListing 500 [("success", VBool false);
                           ("message", VStr "Server error fetching recommended communities.")]
              NoItems)).

(** The matching posts, newest first.  Posts created at the same instant
    come in an order that depends on the collection only, the same at every
    query. *)
Definition timeline (communityId : string) (w : World)
  : list (string * Post.t) :=
  merge_sort newer (List.filter (live_in communityId) (map_to_list (posts w))).

(** [getCommunityPosts] (postController.js, lines 108-135) for a query whose
    [page] and [limit] are positive whole numbers.  The query skips before
    it limits, in whichever order the two are chained; a rejecting read of
    the post collection is filed under [PostFindById].  The condition on
    [community] compares the field as [Post_create] stored it. *)
Definition getCommunityPosts (communityId : string) (page limit : positive)
  : Eff Listing :=
  try_catch
    (let lim := Pos.to_nat limit in
     let skip := ((Pos.to_nat page - 1) * lim)%nat in
     page_posts <- await PostFindById
                (gets (fun w =>
                   map (populated (users w))
                       (take lim (drop skip (timeline communityId w))))) ;;
     total <- await PostFindById
                (gets (fun w =>
                   length (List.filter (live_in communityId)
                                       (map_to_list (posts w))))) ;;
     ret (mkListing 200
            [("success", VBool true);
             ("pagination",
              VObj [("total", VNum (Z.of_nat total));
                    ("page", VNum (Z.pos page));
                    ("pages", VNum (Z.of_nat (pages_of total lim)))])]
            (PostItems page_posts)))
    (fun error =>
       ret (mkListing 500 [("success", VBool false);
                           ("message", VStr (or_else (err_message error)
                                               "Failed to fetch posts."))]
              NoItems)).

(** [verifyEmail] (AuthController.js, lines 303-365). *)
Definition verifyEmail (req : Request) : Eff Response :=
  try_catch
    (let email := b_email (body req) in
     let otp := b_otp (body req) in
     if falsy email || falsy otp
     then respond 400 [("success", VBool false);
                       ("message", VStr "Please provide email and OTP")]
     else
       user <- User_findOne (has_email email) ;;
       match user with
       | None => respond 404 [("success", VBool false);
                              ("message", VStr "User not found")]
       | Some user =>
           if User.isEmailVerified user
           then respond 400 [("success", VBool false);
                             ("message", VStr "Email already verified")]
           else
             t <- gets now ;;
             let isValid := verifyOTP user (str otp) t in
             if negb isValid
             then respond 400 [("success", VBool false);
                               ("message", VStr "Invalid or expired OTP")]
             else
               User_save (verified user) ;;;
               Notification_create
                 (Notification.mk (User._id user) "welcome"
                    "🎉 Welcome to Our Platform!"
                    ("Hi " +:+ User.username user
                     +:+ "! Your email has been successfully verified. Start exploring and connecting with the community!")
                    [("verified", "true")]) ;;;
               respond 200 [("success", VBool true);
                            ("message", VStr "Email verified successfully")]
       end)
    (fun error =>
       respond 500 [("success", VBool false);
                    ("message", VStr (or_else (err_message error)
                                        "Server error during verification"))]).

(** [resendOTP] (AuthController.js, lines 368-421). *)
Definition resendOTP (req : Request) : Eff Response :=
  try_catch
    (let email := b_email (body req) in
     if falsy email
     then respond 400 [("success", VBool false);
                       ("message", VStr "Please provide email")]
     else
       user <- User_findOne (has_email email) ;;
       match user with
       | None => respond 404 [("success", VBool false);
                              ("message", VStr "User not found")]
       | Some user =>
           if User.isEmailVerified user
           then respond 400 [("success", VBool false);
                             ("message", VStr "Email already verified")]
           else
             generated <- generateOTP user ;;
             let '(otp, user) := generated in
             User_save user ;;;
             Notification_create
               (Notification.mk (User._id user) "otp" "🔐 New OTP Request"
                  ("Your new OTP for email verification is: " +:+ otp
                   +:+ ". This code will expire in 10 minutes.")
                  [("otp", otp); ("purpose", "email_verification")]) ;;;
             respond 200 [("success", VBool true);
                          ("message", VStr "OTP sent to your notifications")]
       end)
    (fun error =>
       respond 500 [("success", VBool false);
                    ("message", VStr (or_else (err_message error)
                                        "Server error"))]).

End Listings.

(** ** Notions the further properties are stated with *)

(** The answer of the first guard of [register]. *)
Definition incomplete : Response :=
  mkResponse 400
    [("success", VBool false);
     ("message", VStr "Please provide username, email, password, bio, and profile image")].

(** A character [.] of a regular expression matches. *)
Definition dot (c : ascii) : Prop := is_newline c = false.

(** No leading and no trailing white space. *)
Definition trimmed (s : string) : Prop :=
  match list_ascii_of_string s with
  | [] => True
  | c :: _ => is_space c = false
  end
  /\ match rev (list_ascii_of_string s) with
     | [] => True
     | c :: _ => is_space c = false
     end.

(** The posts on the page a listing answered with. *)
Definition page_of (r : outcome Listing * World) : list PopulatedPost :=
  match fst r with
  | Returned l => match l_items l with PostItems ps => ps | _ => [] end
  | Thrown _ => []
  end.

(** The communities a listing answered with. *)
Definition listed (r : outcome Listing * World) : list Community.t :=
  match fst r with
  | Returned l => match l_items l with CommunityItems cs => cs | _ => [] end
  | Thrown _ => []
  end.

Section Outcomes.
Context {P : Platform}.

(** The condition of the unique index: the name, or the slug made of it, is
    taken. *)
Definition name_taken (name : string) (cs : list Community.t) : bool :=
  existsb (fun x => String.eqb (Community.name x) name
                    || String.eqb (Community.slug x) (slugify name)) cs.

(** The community [createCommunity] stores. *)
Definition founded (req : Request) (w : World) : Community.t :=
  Community.mk (gen_oid w (tick w)) (slugify (str (b_name (body req))))
    (str (b_name (body req))) (str (b_description (body req)))
    (as_array (b_categories (body req)))
    (match file req with
     | Some f => Some ("/uploads/" +:+ filename f)
     | None => None
     end)
    default_visibility (ru_id (user req))
    [Community.mkMember (ru_id (user req)) role_admin] [] 1 [] true.

(** A registration that passes every guard of [register]. *)
Definition acceptable (req : Request) (f : File) : Prop :=
  file req = Some f
  /\ falsy (b_username (body req)) = false
  /\ falsy (b_email (body req)) = false
  /\ falsy (b_password (body req)) = false
  /\ falsy (b_bio (body req)) = false
  /\ falsy_multi (b_interests (body req)) = false
  /\ (6 <= String.length (str (b_password (body req))))%nat
  /\ email_matches (str (b_email (body req))) = true
  /\ (String.length (str (b_bio (body req))) <= 250)%nat
  /\ (size f <= MAX_IMAGE_SIZE)%Z.

(** The condition [{ $or: [{ email }, { username }] }]. *)
Definition same_email_or_name (req : Request) (u : User.t) : bool :=
  String.eqb (User.email u) (str (b_email (body req)))
  || String.eqb (User.username u) (str (b_username (body req))).

(** The user [register] stores, with the code it was given. *)
Definition enrolled (req : Request) (f : File) (w : World) : User.t :=
  User.mk (gen_oid w (tick w)) (str (b_username (body req)))
    (str (b_email (body req))) (hash (str (b_password (body req))))
    (str (b_bio (body req))) (Some ("uploads/" +:+ filename f))
    (prepare_interests (b_interests (body req))) false true []
    (Some (gen_otp w (S (tick w)))) (Some (now w + TEN_MINUTES)%Z) None None.

(** A registration that gets past the first guard and is then refused: by
    the password, email, bio or size guard, or because the email or the
    username is taken. *)
Definition refused (req : Request) (f : File) (w : World) : Prop :=
  (String.length (str (b_password (body req))) < 6)%nat
  \/ email_matches (str (b_email (body req))) = false
  \/ (250 < String.length (str (b_bio (body req))))%nat
  \/ (MAX_IMAGE_SIZE < size f)%Z
  \/ (faults w UserFindOne = None
      /\ exists u, List.find (same_email_or_name req) (users w) = Some u).

(** The media fields [createPost] derives from the staged file. *)
Definition classify (f : option File) : PostType * list string * option string :=
  match f with
  | None => (text, [], None)
  | Some f =>
      let url := API_BASE_URL +:+ "/uploads/" +:+ filename f in
      let ext := toLowerCase (path_extname (originalname f)) in
      if existsb (String.eqb ext) [".jpg"; ".jpeg"; ".png"; ".gif"; ".webp"]
      then (image, [url], None)
      else if existsb (String.eqb ext) [".mp4"; ".mov"; ".webm"]
      then (video, [], Some url)
      else (image, [url], None)
  end.

End Outcomes.

(** ** A concrete platform and concrete worlds *)

Module Sample.

Definition is_hex (c : ascii) : bool :=
  let n := nat_of_ascii c in
  ((48 <=? n) && (n <=? 57) || (97 <=? n) && (n <=? 102))%nat.

(** Ids are 24 lower-case hexadecimal digits; the slug of a name is the name;
    the hash of a password is the password behind a marker. *)
#[local] Instance platform : Platform := {|
  ObjectId_isValid s :=
    (String.length s =? 24)%nat && forallb is_hex (list_ascii_of_string s);
  ObjectId_cast s := s;
  populate _ c := c;
  select _ c := c;
  MAX_IMAGE_SIZE := 5242880;
  MAX_IMAGE_SIZE_MB := "5";
  JSON_parse _ := None;
  slugify s := s;
  default_visibility := public;
  hash s := "hashed:" +:+ s;
  jwt_sign s := "token:" +:+ s;
  path_extname _ := "";
  toLowerCase s := s;
  API_BASE_URL := "http://localhost:3001"
|}.

Definition oid (n : nat) : string :=
  match n with
  | 0 => "64b000000000000000000000"
  | 1 => "64b000000000000000000001"
  | 2 => "64b000000000000000000002"
  | _ => "64b00000000000000000000f"
  end.

Definition empty : World :=
  mkWorld [] [] ∅ [] [] [] 1000 oid (fun _ => "123456") 0 (fun _ => None).

Definition alice : string := "64a0000000000000000000a1".
Definition bob : string := "64a0000000000000000000b2".
Definition carol : string := "64a0000000000000000000c3".

Definition community (id slug : string) (v : Visibility)
  (members : list Community.member) (banned : list string) : Community.t :=
  Community.mk id slug slug "about" ["tech"] None v alice members banned
    (Z.of_nat (length members)) [] true.

(** Two communities: the slug of the second is the id of the first. *)
Definition rocq_id : string := "64c0000000000000000000c1".
Definition rocq : Community.t :=
  community rocq_id "rocq" public [Community.mkMember alice role_admin] [].
Definition shadow : Community.t :=
  community "64c0000000000000000000c2" rocq_id public
    [Community.mkMember alice role_admin] [].
Definition two_communities : World := set_communities [shadow; rocq] empty.

(** A private community with a member and a banned user. *)
Definition club : Community.t :=
  community "64c0000000000000000000c3" "club" private
    [Community.mkMember alice role_admin; Community.mkMember bob role_member]
    [carol].
Definition user_doc (id name : string) : User.t :=
  User.mk id name (name +:+ "@example.org") "hashed:secret" "hello" None
    ["tech"] true true [] None None None None.
Definition town : World :=
  set_users [user_doc alice "alice"; user_doc bob "bob"; user_doc carol "carol"]
    (set_communities [rocq; club] empty).

(** A post of alice in the public community, upvoted by bob. *)
Definition post_id : string := "64d0000000000000000000d1".
Definition hello : Post.t :=
  Post.mk rocq_id alice "hello world" "hello" text [] None false {[bob]} 900.
Definition forum : World := set_posts {[post_id := hello]} town.

(** Alice posts into the community with id [communityId]; [io] tells whether
    the application holds a socket server. *)
Definition posting (communityId : string) (io : bool) : Request :=
  mkRequest
    (mkBody None None None None None None None None None None
            (Some "hi all") (Some communityId) None)
    None (mkReqUser alice "alice") "" io.
Definition club_id : string := "64c0000000000000000000c3".
Definition nowhere : string := "64c00000000000000000dead".

(** Dave has asked for a password reset: the code 654321, good until 5000. *)
Definition dave : User.t :=
  User.mk "64a0000000000000000000d4" "dave" "dave@example.org" "hashed:old"
    "hello" None ["tech"] true true [] None None (Some "654321") (Some 5000%Z).
Definition lobby : World := set_users [dave] empty.
Definition resetting (otp newPassword : string) : Request :=
  mkRequest
    (mkBody None (Some "dave@example.org") None None None (Some otp)
            (Some newPassword) None None None None None None)
    None nobody "" true.

(** A registration with a staged profile image; the upload directory holds
    the staged file. *)
Definition portrait : File := mkFile "uploads/p.png" "p.png" "me.png" 1000.
Definition staging : World := set_disk ["uploads/p.png"] empty.
Definition letters (n : nat) : string :=
  string_of_list_ascii (repeat "b"%char n).
Definition registering (username : option string) (password bio : string)
  : Request :=
  mkRequest
    (mkBody username (Some "erin@example.org") (Some password) (Some bio)
            (Some (Many ["tech"])) None None None None None None None None)
    (Some portrait) nobody "" true.
Definition forgetting (email : string) : Request :=
  mkRequest
    (mkBody None (Some email) None None None None None None None None None
            None None)
    None nobody "" true.

(** Bob founds a community. *)
Definition founding : Request :=
  mkRequest
    (mkBody None None None None None None None (Some "ocaml")
            (Some "about ocaml") (Some (Many ["tech"])) None None None)
    None (mkReqUser bob "bob") "" true.

(** Frank has registered and not verified his email: the code 777777, good
    until 5000. *)
Definition frank : User.t :=
  User.mk "64a0000000000000000000f6" "frank" "frank@example.org" "hashed:pw"
    "hello" None ["tech"] false true [] (Some "777777") (Some 5000%Z) None
    None.
Definition porch : World := set_users [frank] empty.
Definition verifying (email otp : string) : Request :=
  mkRequest
    (mkBody None (Some email) None None None (Some otp) None None None None
            None None None)
    None nobody "" true.

(** A platform whose [path.extname] is the text from the last dot on, and a
    staged clip. *)
Fixpoint last_dot (s : string) : string :=
  match s with
  | EmptyString => ""
  | String c rest =>
      match last_dot rest with
      | EmptyString => if Ascii.eqb c "." then s else ""
      | extension => extension
      end
  end.
Definition node : Platform := {|
  ObjectId_isValid := ObjectId_isValid (Platform := platform);
  ObjectId_cast := ObjectId_cast (Platform := platform);
  populate := populate (Platform := platform);
  select := select (Platform := platform);
  MAX_IMAGE_SIZE := 5242880;
  MAX_IMAGE_SIZE_MB := "5";
  JSON_parse := JSON_parse (Platform := platform);
  slugify := slugify (Platform := platform);
  default_visibility := public;
  hash := hash (Platform := platform);
  jwt_sign := jwt_sign (Platform := platform);
  path_extname := last_dot;
  toLowerCase s := s;
  API_BASE_URL := "http://localhost:3001"
|}.
Definition clip : File := mkFile "uploads/c.mp4" "c.mp4" "clip.mp4" 1000.

(** A request of [who] on the route with parameter [target]. *)
Definition visit (who name target : string) : Request :=
  mkRequest no_body None (mkReqUser who name) target true.

End Sample.

#[local] Existing Instance Sample.platform.

(** * Properties *)

Section Resolution.
Context {P : Platform}.

Lemma await_ok {A} (op : DbOp) (m : Eff A) (w : World) :
  faults w op = None -> await op m w = m w.
Proof. intros H. unfold await. now rewrite H. Qed.

Lemma Community_findOne_ok (cond : Community.t -> bool) (w : World) :
  faults w CommunityFindOne = None ->
  Community_findOne cond w = (Returned (List.find cond (communities w)), w).
Proof. intros H. unfold Community_findOne. now rewrite await_ok. Qed.

Lemma executeQuery_ok pop sel (cond : Community.t -> bool) (w : World) :
  faults w CommunityFindOne = None ->
  executeQuery pop sel cond w
  = (Returned (project pop sel <$> List.find cond (communities w)), w).
Proof.
  intros H. unfold executeQuery, bind. now rewrite Community_findOne_ok.
Qed.

(** C1.  [findCommunity] looks the input up as an id first, when it is
    syntactically an id, and as a slug only when that found nothing: a
    community found by id is the answer whatever the slugs of the other
    communities are, the slug lookup decides otherwise, and the answer is
    [null] exactly when neither lookup matches.  The store is left as it
    was. *)
Theorem findCommunity_id_then_slug
  (idOrSlug : string) (pop : option (string * string)) (sel : option string)
  (w : World) :
  faults w CommunityFindOne = None ->
  let byId := if ObjectId_isValid idOrSlug
              then List.find (by_id idOrSlug) (communities w) else None in
  let bySlug := List.find (by_slug idOrSlug) (communities w) in
  (forall c, byId = Some c ->
     findCommunity idOrSlug pop sel w = (Returned (Some (project pop sel c)), w))
  /\ (byId = None ->
      findCommunity idOrSlug pop sel w = (Returned (project pop sel <$> bySlug), w))
  /\ (findCommunity idOrSlug pop sel w = (Returned None, w)
      <-> byId = None /\ bySlug = None).
Proof.
  intros H byId bySlug.
  assert (E : findCommunity idOrSlug pop sel w
              = (Returned (match byId with
                           | Some c => Some (project pop sel c)
                           | None => project pop sel <$> bySlug
                           end), w)).
  { unfold findCommunity, bind, byId, bySlug.
    destruct (ObjectId_isValid idOrSlug).
    - rewrite executeQuery_ok by assumption.
      destruct (List.find (by_id idOrSlug) (communities w)); cbn.
      + reflexivity.
      + now rewrite executeQuery_ok.
    - cbn. now rewrite executeQuery_ok. }
  rewrite E. split; [| split; [| split]].
  - intros c ->. reflexivity.
  - intros ->. reflexivity.
  - destruct byId; [discriminate |]. intros [= E'].
    destruct bySlug; [discriminate | now split].
  - intros [-> ->]. reflexivity.
Qed.

End Resolution.

(** The id lookup wins over another community whose slug is the same text. *)
Lemma findCommunity_id_then_slug_witness :
  findCommunity Sample.rocq_id None None Sample.two_communities
  = (Returned (Some Sample.rocq), Sample.two_communities).
Proof.
  apply (proj1 (findCommunity_id_then_slug (P := Sample.platform)
                  Sample.rocq_id None None Sample.two_communities eq_refl)
               Sample.rocq).
  reflexivity.
Defined.

Section Membership.
Context {P : Platform}.

(** [findCommunity] only reads the store. *)
Lemma findCommunity_reads (idOrSlug : string) (w : World) :
  after (findCommunity idOrSlug None None w) = w
  /\ (forall c, fst (findCommunity idOrSlug None None w) = Returned (Some c) ->
        In c (communities w)).
Proof.
  unfold findCommunity, executeQuery, Community_findOne, await, bind, gets,
    ret, after.
  destruct (faults w CommunityFindOne) eqn:F;
    destruct (ObjectId_isValid idOrSlug); cbn; rewrite ?F; cbn;
    try (split; [reflexivity | discriminate]).
  - destruct (List.find (by_id idOrSlug) (communities w)) eqn:E1; cbn.
    + split; [reflexivity |]. intros c [= <-]. eapply find_some, E1.
    + rewrite F. cbn. split; [reflexivity |].
      destruct (List.find (by_slug idOrSlug) (communities w)) eqn:E2; cbn;
        [| discriminate].
      intros c [= <-]. eapply find_some, E2.
  - split; [reflexivity |].
    destruct (List.find (by_slug idOrSlug) (communities w)) eqn:E2; cbn;
      [| discriminate].
    intros c [= <-]. eapply find_some, E2.
Qed.

(** C9.  Once the community is resolved, [joinCommunity] tests the ban list
    first, membership second and private visibility last: a banned user gets
    the 403 ban answer whatever the visibility, a member who is not banned
    gets the 400 already-a-member answer even in a private community, and
    only then does a private community answer 403.  None of the three
    touches the store. *)
Theorem joinCommunity_guard_order (req : Request) (w : World) (c : Community.t) :
  findCommunity (param req) None None w = (Returned (Some c), w) ->
  let userId := ru_id (user req) in
  (isBanned c userId = true ->
     joinCommunity req w
     = (Returned (mkResponse 403
          [("success", VBool false);
           ("message", VStr "You are banned from joining this community.")]), w))
  /\ (isBanned c userId = false -> isMember c userId = true ->
      joinCommunity req w
      = (Returned (mkResponse 400
           [("success", VBool false);
            ("message", VStr "You are already a member of this community.")]), w))
  /\ (isBanned c userId = false -> isMember c userId = false ->
      Community.visibility c = private ->
      joinCommunity req w
      = (Returned (mkResponse 403
           [("success", VBool false);
            ("message", VStr "This is a private community. Membership requires admin approval or a separate request process.")]), w)).
Proof.
  intros H userId. unfold joinCommunity, try_catch, bind. rewrite H.
  fold userId. split; [| split].
  - intros ->. reflexivity.
  - intros -> ->. reflexivity.
  - intros -> -> ->. reflexivity.
Qed.

End Membership.

(** A banned user and a member ask to join the private community. *)
Lemma joinCommunity_guard_order_witness :
  joinCommunity (Sample.visit Sample.carol "carol" "club") Sample.town
  = (Returned (mkResponse 403
       [("success", VBool false);
        ("message", VStr "You are banned from joining this community.")]),
     Sample.town)
  /\ joinCommunity (Sample.visit Sample.bob "bob" "club") Sample.town
     = (Returned (mkResponse 400
          [("success", VBool false);
           ("message", VStr "You are already a member of this community.")]),
        Sample.town).
Proof.
  split.
  - apply (proj1 (joinCommunity_guard_order (P := Sample.platform)
                    (Sample.visit Sample.carol "carol" "club") Sample.town Sample.club
                    eq_refl)).
    reflexivity.
  - apply (proj1 (proj2 (joinCommunity_guard_order (P := Sample.platform)
                    (Sample.visit Sample.bob "bob" "club") Sample.town Sample.club
                    eq_refl))); reflexivity.
Defined.

Section MemberCount.
Context {P : Platform}.

Lemma count_ok_joined (userId : string) (c : Community.t) :
  count_ok c -> count_ok (joined userId c).
Proof.
  unfold count_ok, joined. cbn. intros ->.
  rewrite length_app. cbn. lia.
Qed.

Lemma count_ok_replace (c : Community.t) (cs : list Community.t) :
  count_ok c -> Forall count_ok cs ->
  Forall count_ok (map (replace_community c) cs).
Proof.
  intros Hc Hcs. induction Hcs as [| x cs Hx _ IH]; cbn; constructor; auto.
  unfold replace_community. destruct (String.eqb _ _); assumption.
Qed.

Lemma try_catch_after {A} (m : Eff A) (h : Error -> Eff A) (w : World) :
  (forall e w', after (h e w') = w') ->
  after (try_catch m h w) = after (m w).
Proof.
  intros Hh. unfold try_catch, after. destruct (m w) as [[a | e] w']; cbn;
    [reflexivity | apply Hh].
Qed.

(** What [createCommunity] leaves in the store and answers: either the
    collection as it was and no 201, or one new community, with the creator
    as its single member, an admin, and a count of one. *)
Lemma createCommunity_cases (req : Request) (w : World) :
  (communities (after (createCommunity req w)) = communities w
   /\ forall r, sent (createCommunity req w) = Some r -> status r <> 201%Z)
  \/ exists c,
       communities (after (createCommunity req w)) = communities w ++ [c]
       /\ Community.members c
          = [Community.mkMember (ru_id (user req)) role_admin]
       /\ Community.memberCount c = 1%Z
       /\ forall r, sent (createCommunity req w) = Some r ->
            status r = 201%Z -> field "data" (json r) = Some (VCommunity c).
Proof.
  unfold createCommunity, try_catch, bind, after, sent.
  destruct (falsy (b_name (body req)) || falsy (b_description (body req))
            || falsy_multi (b_categories (body req))).
  { left. split; [reflexivity |]. intros r [= <-]. discriminate. }
  unfold Community_create, await, bind, gets, throw, modify, ret, fresh_oid,
    User_addJoined, respond.
  destruct (faults w CommunityCreate) eqn:F1.
  { left. destruct (bool_decide _); [| destruct (String.eqb _ _)]; cbn;
      (split; [reflexivity | intros r [= <-]; discriminate]). }
  destruct (existsb _ (communities w)).
  { left. cbn. split; [reflexivity | intros r [= <-]; discriminate]. }
  cbn [fst snd]. unfold await. cbn [faults set_communities set_tick].
  destruct (faults w UserFindByIdAndUpdate) eqn:F2.
  - right. eexists. 
    destruct (bool_decide _); [| destruct (String.eqb _ _)]; cbn;
      (split; [reflexivity |]; split; [reflexivity |]; split; [reflexivity |];
       intros r [= <-]; discriminate).
  - right. eexists. cbn.
    split; [reflexivity |]. split; [reflexivity |]. split; [reflexivity |].
    intros r [= <-] _. reflexivity.
Qed.

(** What [joinCommunity] leaves in the store and answers: either the
    collection as it was and no 200, or the resolved community with one more
    member entry and a count one higher. *)
Lemma joinCommunity_cases (req : Request) (w : World) :
  (communities (after (joinCommunity req w)) = communities w
   /\ forall r, sent (joinCommunity req w) = Some r -> status r <> 200%Z)
  \/ exists c,
       In c (communities w)
       /\ fst (findCommunity (param req) None None w) = Returned (Some c)
       /\ communities (after (joinCommunity req w))
          = map (replace_community (joined (ru_id (user req)) c)) (communities w)
       /\ forall r, sent (joinCommunity req w) = Some r -> status r = 200%Z ->
            field "data" (json r)
            = Some (VObj [("_id", VStr (Community._id c));
                          ("slug", VStr (Community.slug c));
                          ("memberCount", VNum (Community.memberCount c + 1))]).
Proof.
  destruct (findCommunity_reads (param req) w) as [Hw Hin].
  unfold joinCommunity, try_catch, bind, after, sent in *.
  destruct (findCommunity (param req) None None w) as [[o | e] w1] eqn:E;
    cbn in Hw, Hin; subst w1.
  2:{ left. destruct (String.eqb _ _); cbn;
        (split; [reflexivity | intros r [= <-]; discriminate]). }
  destruct o as [c |].
  2:{ left. cbn. split; [reflexivity | intros r [= <-]; discriminate]. }
  specialize (Hin c eq_refl).
  destruct (isBanned c (ru_id (user req))).
  { left. cbn. split; [reflexivity | intros r [= <-]; discriminate]. }
  unfold addMember.
  destruct (isMember c (ru_id (user req))).
  { left. cbn. split; [reflexivity | intros r [= <-]; discriminate]. }
  destruct (is_private (Community.visibility c)).
  { left. cbn. split; [reflexivity | intros r [= <-]; discriminate]. }
  unfold Community_save, User_addJoined, await, bind, modify, ret, respond.
  destruct (faults w CommunitySave) eqn:F1.
  { left. destruct (String.eqb _ _); cbn;
      (split; [reflexivity | intros r [= <-]; discriminate]). }
  cbn [faults set_communities].
  destruct (faults w UserFindByIdAndUpdate) eqn:F2.
  - right. exists c. split; [exact Hin |]. split; [reflexivity |].
    destruct (String.eqb _ _); cbn;
      (split; [reflexivity | intros r [= <-]; discriminate]).
  - right. exists c. split; [exact Hin |]. split; [reflexivity |]. cbn.
    split; [reflexivity |]. intros r [= <-] _. reflexivity.
Qed.

(** C2.  [memberCount] equals the length of [members] for every community
    after [createCommunity] and after [joinCommunity], whatever they answer,
    provided it did before.  A [createCommunity] that answers 201 has stored
    one new community whose only member is the creator, as admin, with
    [memberCount] 1; a [joinCommunity] that answers 200 has replaced the
    resolved community by itself with exactly one member entry appended and
    [memberCount] one higher. *)
Theorem memberCount_tracks_members (req : Request) (w : World) :
  Forall count_ok (communities w) ->
  (Forall count_ok (communities (after (createCommunity req w)))
   /\ forall r, sent (createCommunity req w) = Some r -> status r = 201%Z ->
        exists c,
          field "data" (json r) = Some (VCommunity c)
          /\ communities (after (createCommunity req w)) = communities w ++ [c]
          /\ Community.members c
             = [Community.mkMember (ru_id (user req)) role_admin]
          /\ Community.memberCount c = 1%Z)
  /\ (Forall count_ok (communities (after (joinCommunity req w)))
      /\ forall r, sent (joinCommunity req w) = Some r -> status r = 200%Z ->
           exists c,
             In c (communities w)
             /\ fst (findCommunity (param req) None None w) = Returned (Some c)
             /\ communities (after (joinCommunity req w))
                = map (replace_community (joined (ru_id (user req)) c))
                      (communities w)
             /\ Community.members (joined (ru_id (user req)) c)
                = Community.members c
                  ++ [Community.mkMember (ru_id (user req)) role_member]
             /\ Community.memberCount (joined (ru_id (user req)) c)
                = (Community.memberCount c + 1)%Z
             /\ field "data" (json r)
                = Some (VObj [("_id", VStr (Community._id c));
                              ("slug", VStr (Community.slug c));
                              ("memberCount",
                               VNum (Community.memberCount c + 1))])).
Proof.
  intros Hinv. split.
  - destruct (createCommunity_cases req w)
      as [[Hcs Hno] | (c & Hcs & Hm & Hn & Hdata)].
    + split; [now rewrite Hcs |]. intros r Hr Hs. now destruct (Hno r Hr).
    + split.
      * rewrite Hcs. apply Forall_app. split; [exact Hinv |].
        constructor; [| constructor]. unfold count_ok. now rewrite Hm, Hn.
      * intros r Hr Hs. exists c. auto.
  - destruct (joinCommunity_cases req w)
      as [[Hcs Hno] | (c & Hin & Hres & Hcs & Hdata)].
    + split; [now rewrite Hcs |]. intros r Hr Hs. now destruct (Hno r Hr).
    + split.
      * rewrite Hcs. apply count_ok_replace; [| exact Hinv].
        apply count_ok_joined. rewrite Forall_forall in Hinv. apply Hinv.
        now apply list_elem_of_In.
      * intros r Hr Hs. exists c. repeat (split; [first [assumption | reflexivity] |]).
        now apply Hdata.
Qed.
End MemberCount.

(** Bob joins a public community of one member. *)
Lemma memberCount_tracks_members_witness :
  Forall count_ok (communities Sample.town)
  /\ Forall count_ok
       (communities
          (after (joinCommunity (Sample.visit Sample.bob "bob" "rocq")
                    Sample.town)))
  /\ (status <$> sent (joinCommunity (Sample.visit Sample.bob "bob" "rocq")
                         Sample.town)) = Some 200%Z.
Proof.
  assert (H : Forall count_ok (communities Sample.town))
    by (repeat constructor).
  split; [exact H |]. split; [| reflexivity].
  apply (proj1 (proj2 (memberCount_tracks_members (P := Sample.platform)
                         (Sample.visit Sample.bob "bob" "rocq") Sample.town H))).
Defined.

Section Votes.
Context {P : Platform}.

Lemma toggle_involutive (u : string) (s : gset string) :
  toggle u (toggle u s) = s.
Proof.
  unfold toggle. destruct (decide (u ∈ s)) as [Hin | Hout].
  - rewrite (bool_decide_eq_true_2 _ Hin).
    rewrite bool_decide_eq_false_2 by set_solver.
    apply set_eq. intros x. destruct (decide (x = u)); set_solver.
  - rewrite (bool_decide_eq_false_2 _ Hout).
    rewrite bool_decide_eq_true_2 by set_solver. set_solver.
Qed.

Lemma toggle_spec (u v : string) (s : gset string) :
  (u ∈ toggle u s <-> u ∉ s) /\ (v <> u -> (v ∈ toggle u s <-> v ∈ s)).
Proof.
  unfold toggle. case_bool_decide; set_solver.
Qed.

Lemma set_upvotes_same (p : Post.t) : Post.set_upvotes (Post.upvotes p) p = p.
Proof. now destruct p. Qed.

(** One [togglePostVote] on a stored post: the post is stored back with the
    vote toggled, whether or not the broadcast that follows succeeds. *)
Lemma togglePostVote_store (req : Request) (w : World) (p : Post.t) :
  faults w PostFindById = None -> faults w PostSave = None ->
  ObjectId_isValid (param req) = true ->
  posts w !! ObjectId_cast (param req) = Some p ->
  posts (after (togglePostVote req w))
  = <[ObjectId_cast (param req) :=
        Post.set_upvotes (toggle (ru_id (user req)) (Post.upvotes p)) p]> (posts w)
  /\ faults (after (togglePostVote req w)) = faults w.
Proof.
  intros F1 F2 Hv Hp.
  unfold togglePostVote, try_catch, bind, after, Post_findById, upvote,
    Post_findById_populated, await, gets, modify, ret, emit, bind.
  rewrite Hv, F1, Hp, F2. cbn [faults set_posts]. rewrite F1.
  destruct (app_io req); cbn; split; reflexivity.
Qed.

(** C3.  For a stored post and a store that answers, one [togglePostVote]
    of a user flips that user's membership of the post's upvote set and
    nobody else's, and a second one by the same user restores the post, and
    with it the whole post collection, to what it was. *)
Theorem togglePostVote_involution (req : Request) (w : World) (p : Post.t) :
  faults w PostFindById = None -> faults w PostSave = None ->
  ObjectId_isValid (param req) = true ->
  posts w !! ObjectId_cast (param req) = Some p ->
  let id := ObjectId_cast (param req) in
  let userId := ru_id (user req) in
  let once := after (togglePostVote req w) in
  let twice := after (togglePostVote req once) in
  (exists p1, posts once !! id = Some p1
     /\ (userId ∈ Post.upvotes p1 <-> userId ∉ Post.upvotes p)
     /\ (forall v, v <> userId -> (v ∈ Post.upvotes p1 <-> v ∈ Post.upvotes p)))
  /\ posts twice !! id = Some p
  /\ posts twice = posts w.
Proof.
  intros F1 F2 Hv Hp id userId once twice.
  destruct (togglePostVote_store req w p F1 F2 Hv Hp) as [H1 Hf].
  fold once id userId in H1, Hf.
  assert (Hp1 : posts once !! id
                = Some (Post.set_upvotes (toggle userId (Post.upvotes p)) p)).
  { rewrite H1. apply lookup_insert_eq. }
  assert (F1' : faults once PostFindById = None) by now rewrite Hf.
  assert (F2' : faults once PostSave = None) by now rewrite Hf.
  destruct (togglePostVote_store req once _ F1' F2' Hv Hp1) as [H2 _].
  fold twice id userId in H2. cbn [Post.set_upvotes Post.upvotes] in H2.
  assert (E : posts twice = posts w).
  { rewrite H2, H1, insert_insert_eq. 
    replace (Post.set_upvotes _ _) with p.
    - now apply insert_id.
    - destruct p. cbn. now rewrite toggle_involutive. }
  split; [| split].
  - eexists. split; [exact Hp1 |]. cbn [Post.set_upvotes Post.upvotes].
    split; [apply (toggle_spec userId userId) |].
    intros v Hv'. now apply (toggle_spec userId v).
  - now rewrite E.
  - exact E.
Qed.
End Votes.

(** Carol votes twice on a post bob has upvoted. *)
Lemma togglePostVote_involution_witness :
  posts (after (togglePostVote (Sample.visit Sample.carol "carol" Sample.post_id)
                  (after (togglePostVote
                            (Sample.visit Sample.carol "carol" Sample.post_id)
                            Sample.forum))))
  = posts Sample.forum.
Proof.
  apply (proj2 (proj2 (togglePostVote_involution (P := Sample.platform)
           (Sample.visit Sample.carol "carol" Sample.post_id) Sample.forum
           Sample.hello eq_refl eq_refl eq_refl eq_refl))).
Defined.

Section FanOut.
Context {P : Platform}.

Lemma notify_returns (postId : string) (post : Post.t)
  (communityId authorId authorUsername : string) (w : World) :
  fst (notifyCommunityMembers postId post communityId authorId authorUsername w)
  = Returned tt.
Proof.
  unfold notifyCommunityMembers, try_catch.
  destruct (bind _ _ w) as [[[] | e] w']; reflexivity.
Qed.

Lemma notify_frame (postId : string) (post : Post.t)
  (communityId authorId authorUsername : string) (w : World) :
  let w' := after (notifyCommunityMembers postId post communityId authorId
                     authorUsername w) in
  w' = set_notifications (notifications w') w.
Proof.
  intros w'. subst w'.
  unfold notifyCommunityMembers, try_catch, bind, Community_findById,
    Notification_insertMany, await, gets, modify, after, throw, ret.
  destruct w as [us cs ps ns d em t go gt tk fs].
  destruct (ObjectId_isValid communityId); simpl; [| reflexivity].
  destruct (fs CommunityFindById); simpl; [reflexivity |].
  destruct (List.find _ cs); simpl; [| reflexivity].
  destruct (fs NotificationInsertMany); reflexivity.
Qed.

Lemma notify_ok (postId : string) (post : Post.t)
  (communityId authorId authorUsername : string) (w : World) (X : Community.t) :
  ObjectId_isValid communityId = true ->
  faults w CommunityFindById = None ->
  faults w NotificationInsertMany = None ->
  List.find (by_id communityId) (communities w) = Some X ->
  after (notifyCommunityMembers postId post communityId authorId authorUsername w)
  = set_notifications
      (notifications w
       ++ map (post_notification (Community.name X) authorUsername
                 (Post.content post) communityId postId)
              (others authorId X)) w.
Proof.
  intros Hv F1 F2 HX.
  unfold notifyCommunityMembers, try_catch, bind, Community_findById,
    Notification_insertMany, await, gets, modify, after.
  rewrite Hv, F1, HX, F2. reflexivity.
Qed.

Lemma others_length (authorId : string) (c : Community.t) :
  NoDup (map Community.user (Community.members c)) ->
  isMember c authorId = true ->
  S (length (others authorId c)) = length (Community.members c).
Proof.
  unfold others, isMember. rewrite length_map.
  induction (Community.members c) as [| m ms IH]; cbn; [discriminate |].
  intros Hnd Hex. apply NoDup_cons in Hnd as [Hm Hnd].
  destruct (String.eqb_spec (Community.user m) authorId) as [E | E]; cbn.
  - f_equal. clear IH Hex. 
    induction ms as [| m' ms IH]; cbn; [reflexivity |].
    apply not_elem_of_cons in Hm as [Hne Hm].
    apply NoDup_cons in Hnd as [_ Hnd].
    destruct (String.eqb_spec (Community.user m') authorId) as [E' | E']; cbn.
    + congruence.
    + f_equal. now apply IH.
  - f_equal. now apply IH.
Qed.

(** An accepted [createPost]: the post is stored under the next id, the
    answer is 201 with the populated post, and the fan-out, when its two
    store calls succeed, appends one notification per other member. *)
Lemma createPost_run (req : Request) (w : World) :
  falsy (b_content (body req)) = false ->
  falsy (b_communityId (body req)) = false ->
  app_io req = true ->
  faults w PostCreate = None ->
  faults w PostFindById = None ->
  let communityId := str (b_communityId (body req)) in
  let A := ru_id (user req) in
  let id := gen_oid w (tick w) in
  let done := createPost req w in
  exists p,
    Post.content p = str (b_content (body req))
    /\ Post.community p = communityId
    /\ Post.author p = A
    /\ posts (after done) = <[id := p]> (posts w)
    /\ (exists author,
          sent done = Some (mkResponse 201
            [("success", VBool true);
             ("post", VPost (mkPopulated id p author))]))
    /\ (forall X,
          ObjectId_isValid communityId = true ->
          List.find (by_id communityId) (communities w) = Some X ->
          faults w CommunityFindById = None ->
          faults w NotificationInsertMany = None ->
          notifications (after done)
          = notifications w
            ++ map (post_notification (Community.name X)
                      (ru_username (user req)) (str (b_content (body req)))
                      communityId id)
                   (others A X)
          /\ (NoDup (map Community.user (Community.members X)) ->
              isMember X A = true ->
              S (length (others A X)) = length (Community.members X))).
Proof.
  intros Hc Hi Hio F1 F2 communityId A id done. subst done.
  unfold createPost, try_catch, bind.
  rewrite Hc, Hi. cbn [orb].
  set (classified := match file req with Some _ => _ | None => _ end).
  destruct classified as [[type images] videoUrl].
  unfold Post_create, await, bind, fresh_oid, gets, modify, ret.
  rewrite F1. cbn [faults set_posts set_tick now posts tick gen_oid].
  unfold Post_findById_populated, await, gets, emit.
  cbn [faults set_posts set_tick now posts tick gen_oid users].
  rewrite F2, Hio. rewrite lookup_insert_eq.
  unfold detached, modify, respond, ret, sent, after.
  cbn [fst snd mbind option_bind].
  exists (Post.mk communityId A (str (b_content (body req)))
            (if falsy (b_title (body req))
             then prefix 50 (str (b_content (body req)))
             else str (b_title (body req)))
            type images videoUrl false ∅ (now w)).
  split; [reflexivity |]. split; [reflexivity |].
  split; [reflexivity |].
  match goal with
  | |- context [notifyCommunityMembers ?a ?b ?c ?d ?e ?w0] =>
      pose proof (notify_frame a b c d e w0) as Hframe;
      pose proof (fun X => notify_ok a b c d e w0 X) as Hok;
      unfold after in Hframe, Hok; cbn zeta in Hframe;
      set (w' := snd (notifyCommunityMembers a b c d e w0)) in *
  end.
  split; [rewrite Hframe; reflexivity |].
  split; [eexists; reflexivity |].
  intros X Hv HX F3 F4. split; [| apply others_length].
  rewrite (Hok X Hv F3 F4 HX). reflexivity.
Qed.

(** C4 (amended).  For a [createPost] with content and community id, a
    socket server on the application and a store that accepts the post, the
    answer is 201 whatever the notification fan-out does: nothing is assumed
    about the fan-out's community lookup or bulk insert, whose failure is
    swallowed.  When the community id resolves to [X] and those two calls
    succeed, the fan-out appends exactly one notification per member entry
    of [X] whose user is not the author: one fewer than the member entries
    when the author is a member and the members are distinct. *)
Theorem createPost_fanout (req : Request) (w : World) :
  falsy (b_content (body req)) = false ->
  falsy (b_communityId (body req)) = false ->
  app_io req = true ->
  faults w PostCreate = None ->
  faults w PostFindById = None ->
  let communityId := str (b_communityId (body req)) in
  let A := ru_id (user req) in
  let done := createPost req w in
  status <$> sent done = Some 201%Z
  /\ (forall X,
        ObjectId_isValid communityId = true ->
        List.find (by_id communityId) (communities w) = Some X ->
        faults w CommunityFindById = None ->
        faults w NotificationInsertMany = None ->
        (exists added,
           notifications (after done) = notifications w ++ added
           /\ map Notification.user added = others A X
           /\ Forall (fun n => Notification.type n = "post") added)
        /\ (NoDup (map Community.user (Community.members X)) ->
            isMember X A = true ->
            S (length (others A X)) = length (Community.members X))).
Proof.
  intros Hc Hi Hio F1 F2 communityId A done.
  destruct (createPost_run req w Hc Hi Hio F1 F2)
    as (p & _ & _ & _ & _ & [author Hsent] & Hfan).
  fold done in Hsent, Hfan. split; [now rewrite Hsent |].
  intros X Hv HX F3 F4. destruct (Hfan X Hv HX F3 F4) as [Hn Hlen].
  split; [| exact Hlen].
  eexists. split; [exact Hn |]. split.
  - rewrite <- list_fmap_compose. apply list_fmap_id.
  - apply Forall_fmap, Forall_forall. reflexivity.
Qed.

(** C10.  [createPost] never consults the community collection for its
    answer: with any other collection in its place the answer and the
    stored posts are the same, so no community id is refused for naming no
    community or one the author is not a member of; with content and
    community id present (and a socket server and a store that accepts the
    post) the answer is 201 whatever the communities are. *)
Theorem createPost_ignores_communities (req : Request) (w : World) :
  (forall cs,
     sent (createPost req (set_communities cs w)) = sent (createPost req w)
     /\ posts (after (createPost req (set_communities cs w)))
        = posts (after (createPost req w)))
  /\ (falsy (b_content (body req)) = false ->
      falsy (b_communityId (body req)) = false ->
      app_io req = true ->
      faults w PostCreate = None ->
      faults w PostFindById = None ->
      forall cs,
        status <$> sent (createPost req (set_communities cs w)) = Some 201%Z).
Proof.
  split.
  - intros cs. unfold createPost, try_catch, bind, sent, after.
    destruct (falsy (b_content (body req)) || falsy (b_communityId (body req)));
      [split; reflexivity |].
    set (classified := match file req with Some _ => _ | None => _ end).
    destruct classified as [[type images] videoUrl].
    unfold Post_create, await, bind, fresh_oid, gets, modify, ret.
    cbn [faults set_communities].
    destruct (faults w PostCreate); [split; reflexivity |].
    cbn [faults set_posts set_tick set_communities now posts tick gen_oid].
    unfold Post_findById_populated, await, gets, emit.
    cbn [faults set_posts set_tick set_communities now posts tick gen_oid users].
    destruct (faults w PostFindById); [split; reflexivity |].
    destruct (app_io req); [| split; reflexivity].
    unfold detached, modify, respond, ret.
    cbn [fst snd mbind option_bind emitted set_posts set_tick set_communities].
    split; [reflexivity |].
    repeat match goal with
    | |- context [snd (notifyCommunityMembers ?a ?b ?c ?d ?e ?w0)] =>
        let H := fresh "Hframe" in
        pose proof (notify_frame a b c d e w0) as H;
        unfold after in H; cbn zeta in H;
        let w' := fresh "w'" in
        set (w' := snd (notifyCommunityMembers a b c d e w0)) in *;
        clearbody w'; rewrite H; clear H
    end.
    reflexivity.
  - intros Hc Hi Hio F1 F2 cs.
    destruct (createPost_run req (set_communities cs w) Hc Hi Hio F1 F2)
      as (p & _ & _ & _ & _ & [author ->] & _).
    reflexivity.
Qed.
End FanOut.

(** Alice posts into the club, whose other member is bob: bob alone is
    notified. *)
Lemma createPost_fanout_witness :
  map Notification.user
    (notifications (after (createPost (Sample.posting Sample.club_id true)
                             Sample.town)))
  = [Sample.bob].
Proof.
  destruct (createPost_fanout (P := Sample.platform)
              (Sample.posting Sample.club_id true) Sample.town
              eq_refl eq_refl eq_refl eq_refl eq_refl) as [_ Hfan].
  destruct (Hfan Sample.club eq_refl eq_refl eq_refl eq_refl)
    as [(added & -> & Hto & _) _].
  exact Hto.
Defined.

(** The claim as stated fails where the broadcast fails: without a socket
    server on the application the post is stored, the broadcast throws, and
    the answer is 500. *)
Lemma createPost_broadcast_failure :
  status <$> sent (createPost (Sample.posting Sample.club_id false) Sample.town)
  = Some 500%Z
  /\ Post.content
       <$> posts (after (createPost (Sample.posting Sample.club_id false)
                           Sample.town)) !! Sample.oid 0
     = Some "hi all"
  /\ status <$> sent (createPost (Sample.posting Sample.club_id true) Sample.town)
     = Some 201%Z.
Proof. vm_compute. repeat split. Qed.

(** Alice posts into a community that does not exist. *)
Lemma createPost_ignores_communities_witness :
  status <$> sent (createPost (Sample.posting Sample.nowhere true) Sample.town)
  = Some 201%Z.
Proof.
  apply (proj2 (createPost_ignores_communities (P := Sample.platform)
                  (Sample.posting Sample.nowhere true) Sample.town)
               eq_refl eq_refl eq_refl eq_refl eq_refl
               (communities Sample.town)).
Defined.

Section Reset.
Context {P : Platform}.

(** [findOne] by a condition the saved document still meets finds the saved
    document. *)
Lemma find_after_save (f : User.t -> bool) (us : list User.t) (u u' : User.t) :
  List.find f us = Some u -> User._id u' = User._id u -> f u' = true ->
  List.find f (map (fun x => if String.eqb (User._id x) (User._id u')
                             then u' else x) us) = Some u'.
Proof.
  intros Hfind Hid Hf. induction us as [| x us IH]; cbn in *; [discriminate |].
  destruct (String.eqb_spec (User._id x) (User._id u')) as [E | E].
  - now rewrite Hf.
  - destruct (f x) eqn:Hx.
    + injection Hfind as ->. congruence.
    + now apply IH.
Qed.

(** The invalid-OTP branch of [resetPassword]. *)
Lemma resetPassword_rejects (req : Request) (w : World) (u : User.t) :
  well_formed req ->
  faults w UserFindOne = None -> faults w UserSave = None ->
  List.find (has_email (b_email (body req))) (users w) = Some u ->
  verifyResetPasswordOTP u (str (b_otp (body req))) (now w) = false ->
  resetPassword req w
  = (Returned invalid_otp,
     set_users (map (fun x => if String.eqb (User._id x) (User._id u)
                              then User.set_reset None None u else x)
                    (users w)) w).
Proof.
  intros (He & Ho & Hn & Hlen) F1 F2 Hu Hbad.
  unfold resetPassword, try_catch, bind. rewrite He, Ho, Hn. cbn [orb].
  apply Nat.ltb_ge in Hlen. rewrite Hlen.
  unfold User_findOne, User_save, await, gets, modify, respond, ret.
  rewrite F1. unfold has_email in Hu. rewrite Hu. rewrite Hbad. cbn [negb].
  rewrite F2. reflexivity.
Qed.

(** [forgotPassword] for a known email: the user is stored with a fresh
    code that expires in ten minutes, and the code is sent back. *)
Lemma forgotPassword_issues (req : Request) (w : World) (u : User.t) :
  falsy (b_email (body req)) = false ->
  faults w UserFindOne = None -> faults w UserSave = None ->
  faults w NotificationCreate = None ->
  List.find (has_email (b_email (body req))) (users w) = Some u ->
  let code := gen_otp w (tick w) in
  let u' := User.set_reset (Some code) (Some (now w + TEN_MINUTES)%Z) u in
  sent (forgotPassword req w)
  = Some (mkResponse 200
      [("success", VBool true);
       ("message", VStr "Password reset code successfully sent to your notifications.");
       ("otp", VStr code)])
  /\ users (after (forgotPassword req w))
     = map (fun x => if String.eqb (User._id x) (User._id u) then u' else x)
           (users w)
  /\ now (after (forgotPassword req w)) = now w
  /\ faults (after (forgotPassword req w)) = faults w.
Proof.
  intros He F1 F2 F3 Hu code u'.
  unfold forgotPassword, try_catch, bind. rewrite He.
  unfold User_findOne, await, gets. rewrite F1.
  unfold has_email in Hu. rewrite Hu.
  unfold getResetPasswordOTP, random_code, bind, gets, ret.
  cbn [now set_tick].
  unfold User_save, Notification_create, await, modify, respond, ret.
  cbn [faults set_tick set_users]. rewrite F2.
  cbn [faults set_tick set_users]. rewrite F3.
  repeat split.
Qed.

(** C7 (amended).  For a [resetPassword] that provides email, OTP and a new
    password of at least six characters, by an existing user whose submitted
    OTP is invalid or expired (and a store that answers): the call answers
    400 with the invalid-OTP message and stores the user without reset code
    and expiry; any later well-formed submission for that email, whatever
    code it carries and whenever it comes, gets the same answer; and after a
    [forgotPassword] for that email the code it issues is accepted. *)
Theorem resetPassword_invalid_otp_clears (req : Request) (w : World) (u : User.t) :
  well_formed req ->
  faults w UserFindOne = None -> faults w UserSave = None ->
  List.find (has_email (b_email (body req))) (users w) = Some u ->
  verifyResetPasswordOTP u (str (b_otp (body req))) (now w) = false ->
  let done := resetPassword req w in
  sent done = Some invalid_otp
  /\ (exists u',
        List.find (has_email (b_email (body req))) (users (after done)) = Some u'
        /\ User.resetPasswordToken u' = None
        /\ User.resetPasswordExpires u' = None)
  /\ (forall req' t,
        well_formed req' ->
        b_email (body req') = b_email (body req) ->
        sent (resetPassword req' (set_now t (after done))) = Some invalid_otp)
  /\ (forall req',
        well_formed req' ->
        b_email (body req') = b_email (body req) ->
        b_otp (body req') = Some (gen_otp w (tick w)) ->
        faults w NotificationCreate = None ->
        status <$> sent (resetPassword req'
                           (after (forgotPassword req (after done))))
        = Some 200%Z).
Proof.
  intros Hwf F1 F2 Hu Hbad done. subst done.
  rewrite (resetPassword_rejects req w u Hwf F1 F2 Hu Hbad).
  unfold sent, after. cbn [fst snd users set_users].
  assert (Hu' : List.find (has_email (b_email (body req)))
                  (map (fun x => if String.eqb (User._id x) (User._id u)
                                 then User.set_reset None None u else x)
                       (users w))
                = Some (User.set_reset None None u)).
  { apply (find_after_save _ _ u (User.set_reset None None u) Hu).
    - reflexivity.
    - apply find_some in Hu as [_ Hu]. exact Hu. }
  split; [reflexivity |]. split; [| split].
  - eexists. split; [exact Hu' |]. split; reflexivity.
  - intros req' t Hwf' He.
    rewrite (resetPassword_rejects req' _ (User.set_reset None None u) Hwf').
    + reflexivity.
    + exact F1.
    + exact F2.
    + rewrite He. exact Hu'.
    + reflexivity.
  - intros req' Hwf' He Hcode F3.
    destruct Hwf as (Hemail & _).
    set (w1 := set_users _ w) in *.
    destruct (forgotPassword_issues req w1 (User.set_reset None None u)
                Hemail F1 F2 F3 Hu') as (_ & Hus & Hnow & Hfl).
    unfold after in Hus, Hnow, Hfl.
    set (w2 := snd (forgotPassword req w1)) in *.
    destruct Hwf' as (He' & Ho' & Hn' & Hlen').
    unfold resetPassword, try_catch, bind, sent. rewrite He', Ho', Hn'.
    cbn [orb]. apply Nat.ltb_ge in Hlen'. rewrite Hlen'.
    unfold User_findOne, User_save, await, gets, modify, respond, ret.
    rewrite Hfl. cbn [faults w1 set_users]. rewrite F1.
    assert (Hu2 : List.find (has_email (b_email (body req))) (users w2)
                  = Some (User.set_reset (Some (gen_otp w1 (tick w1)))
                            (Some (now w1 + TEN_MINUTES)%Z)
                            (User.set_reset None None u))).
    { rewrite Hus.
      apply (find_after_save (has_email (b_email (body req))) (users w1)
               (User.set_reset None None u)
               (User.set_reset (Some (gen_otp w1 (tick w1)))
                  (Some (now w1 + TEN_MINUTES)%Z) (User.set_reset None None u))
               Hu').
      - reflexivity.
      - apply find_some in Hu as [_ Hu]. exact Hu. }
    unfold has_email in Hu2. rewrite He, Hu2.
    rewrite Hnow, Hcode.
    unfold verifyResetPasswordOTP. cbn [User.resetPasswordToken
      User.resetPasswordExpires User.set_reset str default id now w1 set_users tick gen_otp].
    rewrite String.eqb_refl.
    replace (now w <? now w + TEN_MINUTES)%Z with true
      by (symmetry; apply Z.ltb_lt; unfold TEN_MINUTES; lia).
    cbn [andb negb]. rewrite Hfl. cbn [faults w1 set_users]. rewrite F2.
    reflexivity.
Qed.
End Reset.

(** Dave submits a wrong code with a valid new password. *)
Lemma resetPassword_invalid_otp_clears_witness :
  sent (resetPassword (Sample.resetting "000000" "longenough") Sample.lobby)
  = Some invalid_otp.
Proof.
  apply (resetPassword_invalid_otp_clears (P := Sample.platform)
           (Sample.resetting "000000" "longenough") Sample.lobby Sample.dave).
  - unfold well_formed. cbn. repeat split. lia.
  - reflexivity.
  - reflexivity.
  - reflexivity.
  - reflexivity.
Defined.

(** The claim as stated fails on a call whose new password is too short:
    the wrong code is never looked at, the answer is the validation error,
    and the stored code stays. *)
Lemma resetPassword_short_password_keeps_otp :
  sent (resetPassword (Sample.resetting "000000" "abc") Sample.lobby)
  = Some (mkResponse 400
            [("status", VStr "fail");
             ("message", VStr "New password must be at least 6 characters long.")])
  /\ User.resetPasswordToken
       <$> users (after (resetPassword (Sample.resetting "000000" "abc")
                           Sample.lobby))
     = [Some "654321"].
Proof. split; reflexivity. Qed.

(** * Where the code departs from the claims *)

(** C5.  A registration with a staged file and no username: the answer is
    the 400 of the first guard and the staged file is still in the upload
    directory; the guard for a short password, by contrast, ends with the
    file removed. *)
Lemma register_missing_field_keeps_file :
  sent (register (Sample.registering None "secret1" "hello") Sample.staging)
  = Some (mkResponse 400
            [("success", VBool false);
             ("message", VStr "Please provide username, email, password, bio, and profile image")])
  /\ disk (after (register (Sample.registering None "secret1" "hello")
                    Sample.staging))
     = ["uploads/p.png"]
  /\ disk (after (register (Sample.registering (Some "erin") "abc" "hello")
                    Sample.staging))
     = [].
Proof. vm_compute. repeat split. Qed.

(** C6.  [forgotPassword] answers 200 with [success: true] for a known and
    for an unknown email, but the two answers differ: the message is
    another, and the known account's answer carries the code. *)
Lemma forgotPassword_reveals_account :
  sent (forgotPassword (Sample.forgetting "ghost@example.org") Sample.lobby)
  = Some (mkResponse 200
            [("success", VBool true);
             ("message", VStr "If the account exists, a password reset code has been sent to your notifications.")])
  /\ sent (forgotPassword (Sample.forgetting "dave@example.org") Sample.lobby)
     = Some (mkResponse 200
               [("success", VBool true);
                ("message", VStr "Password reset code successfully sent to your notifications.");
                ("otp", VStr "123456")]).
Proof. vm_compute. repeat split. Qed.

(** C8.  The bio guard is a strict test against 250: a bio of 250
    characters passes it and the registration answers 201.  A bio of 251
    characters takes the guard, whose first statement calls
    [fs.unlinkSync]; the call throws, the [catch] block removes the file
    and the answer is 500 with the error's message, not the 400 of the
    guard. *)
Lemma register_bio_boundary :
  status <$> sent (register (Sample.registering (Some "erin") "secret1"
                               (Sample.letters 250)) Sample.staging)
  = Some 201%Z
  /\ sent (register (Sample.registering (Some "erin") "secret1"
                       (Sample.letters 251)) Sample.staging)
     = Some (mkResponse 500
               [("success", VBool false);
                ("message", VStr "fs.unlinkSync is not a function")])
  /\ disk (after (register (Sample.registering (Some "erin") "secret1"
                             (Sample.letters 251)) Sample.staging))
     = []
  /\ users (after (register (Sample.registering (Some "erin") "secret1"
                              (Sample.letters 251)) Sample.staging))
     = [].
Proof. vm_compute. repeat split. Qed.

(** * Further properties of the handlers *)

Section Join.
Context {P : Platform}.

Lemma findCommunity_run (idOrSlug : string) (w : World) :
  faults w CommunityFindOne = None ->
  findCommunity idOrSlug None None w
  = (Returned (match (if ObjectId_isValid idOrSlug
                      then List.find (by_id idOrSlug) (communities w)
                      else None) with
               | Some c => Some c
               | None => List.find (by_slug idOrSlug) (communities w)
               end), w).
Proof.
  intros F. unfold findCommunity, executeQuery, Community_findOne, await,
    bind, gets, ret.
  destruct (ObjectId_isValid idOrSlug); rewrite ?F; cbn.
  - destruct (List.find (by_id idOrSlug) (communities w)); cbn;
      [reflexivity |].
    rewrite F. now destruct (List.find (by_slug idOrSlug) (communities w)).
  - now destruct (List.find (by_slug idOrSlug) (communities w)).
Qed.

Lemma find_replace_community (f : Community.t -> bool)
  (cs : list Community.t) (c c' : Community.t) :
  List.find f cs = Some c -> Community._id c' = Community._id c ->
  f c' = true ->
  List.find f (map (replace_community c') cs) = Some c'.
Proof.
  intros Hfind Hid Hf. induction cs as [| x cs IH]; cbn in *; [discriminate |].
  destruct (String.eqb_spec (Community._id x) (Community._id c')) as [E | E].
  - unfold replace_community at 1 2.
    apply String.eqb_eq in E. rewrite E. now rewrite Hf.
  - unfold replace_community at 1 2.
    apply String.eqb_neq in E. rewrite E.
    destruct (f x) eqn:Hx.
    + injection Hfind as ->. apply String.eqb_neq in E. congruence.
    + now apply IH.
Qed.

Lemma find_by_id_replace (s : string) (cs : list Community.t)
  (c' : Community.t) :
  List.find (by_id s) cs = None ->
  List.find (by_id s) (map (replace_community c') cs) = None.
Proof.
  induction cs as [| x cs IH]; cbn; [reflexivity |].
  assert (E : by_id s (replace_community c' x) = by_id s x).
  { unfold replace_community, by_id.
    destruct (String.eqb_spec (Community._id x) (Community._id c')) as [E | E];
      [now rewrite E | reflexivity]. }
  rewrite E. destruct (by_id s x); [discriminate | exact IH].
Qed.

(** Resolution after the resolved community was saved with the same id and
    slug: the saved document is what is found. *)
Lemma findCommunity_after_save (idOrSlug : string) (w : World)
  (c c' : Community.t) :
  faults w CommunityFindOne = None ->
  findCommunity idOrSlug None None w = (Returned (Some c), w) ->
  Community._id c' = Community._id c ->
  Community.slug c' = Community.slug c ->
  forall w',
    faults w' = faults w ->
    communities w' = map (replace_community c') (communities w) ->
    findCommunity idOrSlug None None w' = (Returned (Some c'), w').
Proof.
  intros F Hres Hid Hslug w' Hf Hcs.
  rewrite findCommunity_run in Hres by exact F.
  rewrite findCommunity_run by now rewrite Hf.
  rewrite Hcs. injection Hres as Hres.
  destruct (ObjectId_isValid idOrSlug).
  - destruct (List.find (by_id idOrSlug) (communities w)) as [c0 |] eqn:E.
    + injection Hres as ->.
      rewrite (find_replace_community _ _ c c' E Hid); [reflexivity |].
      apply find_some in E as [_ E]. unfold by_id in *. now rewrite Hid.
    + rewrite (find_by_id_replace _ _ _ E).
      rewrite (find_replace_community _ _ c c' Hres Hid); [reflexivity |].
      apply find_some in Hres as [_ E']. unfold by_slug in *. now rewrite Hslug.
  - rewrite (find_replace_community _ _ c c' Hres Hid); [reflexivity |].
    apply find_some in Hres as [_ E']. unfold by_slug in *. now rewrite Hslug.
Qed.

Lemma addToSet_In (x : string) (l : list string) : In x (addToSet x l).
Proof.
  unfold addToSet. destruct (existsb (String.eqb x) l) eqn:E.
  - apply existsb_exists in E as (y & Hy & E). apply String.eqb_eq in E.
    now subst y.
  - apply in_or_app. right. now left.
Qed.

Lemma isMember_joined (userId : string) (c : Community.t) :
  isMember (joined userId c) userId = true.
Proof.
  unfold isMember, joined. cbn. rewrite existsb_app. cbn.
  rewrite String.eqb_refl. now rewrite orb_true_r.
Qed.

(** An accepted [joinCommunity]: the answer and the world it leaves. *)
Lemma joinCommunity_run (req : Request) (w : World) (c : Community.t) :
  faults w CommunityFindOne = None ->
  faults w CommunitySave = None ->
  faults w UserFindByIdAndUpdate = None ->
  findCommunity (param req) None None w = (Returned (Some c), w) ->
  isBanned c (ru_id (user req)) = false ->
  isMember c (ru_id (user req)) = false ->
  is_private (Community.visibility c) = false ->
  joinCommunity req w
  = (Returned (mkResponse 200
       [("success", VBool true);
        ("message", VStr ("Successfully joined community: "
                          +:+ Community.name c));
        ("data", VObj [("_id", VStr (Community._id c));
                       ("slug", VStr (Community.slug c));
                       ("memberCount", VNum (Community.memberCount c + 1))])]),
     set_users
       (map (fun u => if String.eqb (User._id u) (ru_id (user req))
                      then User.set_joined
                             (addToSet (Community._id c)
                                       (User.joinedCommunities u)) u
                      else u) (users w))
       (set_communities
          (map (replace_community (joined (ru_id (user req)) c))
               (communities w)) w)).
Proof.
  intros F1 F2 F3 Hres Hban Hmem Hpriv.
  unfold joinCommunity, try_catch, bind. rewrite Hres.
  rewrite Hban, Hmem, Hpriv.
  unfold addMember. rewrite Hmem.
  unfold Community_save, User_addJoined, await, bind, modify, ret, respond.
  rewrite F2. cbn [faults set_communities]. rewrite F3. reflexivity.
Qed.

(** X1.  A [joinCommunity] of a resolved community that is not private, by
    a user who is neither banned nor a member, with a store that answers:
    the answer is 200, the community is stored with the user appended, every
    stored user with that id has the community id among its
    [joinedCommunities], no user is added or lost, and the same request once
    more gets the 400 already-a-member answer and changes nothing. *)
Theorem joinCommunity_joins (req : Request) (w : World) (c : Community.t) :
  faults w CommunityFindOne = None ->
  faults w CommunitySave = None ->
  faults w UserFindByIdAndUpdate = None ->
  findCommunity (param req) None None w = (Returned (Some c), w) ->
  isBanned c (ru_id (user req)) = false ->
  isMember c (ru_id (user req)) = false ->
  is_private (Community.visibility c) = false ->
  let userId := ru_id (user req) in
  let done := joinCommunity req w in
  status <$> sent done = Some 200%Z
  /\ communities (after done)
     = map (replace_community (joined userId c)) (communities w)
  /\ (forall u, In u (users (after done)) -> User._id u = userId ->
        In (Community._id c) (User.joinedCommunities u))
  /\ length (users (after done)) = length (users w)
  /\ sent (joinCommunity req (after done))
     = Some (mkResponse 400
               [("success", VBool false);
                ("message", VStr "You are already a member of this community.")])
  /\ after (joinCommunity req (after done)) = after done.
Proof.
  intros F1 F2 F3 Hres Hban Hmem Hpriv userId done. subst userId done.
  rewrite (joinCommunity_run req w c F1 F2 F3 Hres Hban Hmem Hpriv).
  set (userId := ru_id (user req)) in *.
  unfold sent, after. cbn [fst snd].
  set (w' := set_users _ _).
  assert (Hres' : findCommunity (param req) None None w'
                  = (Returned (Some (joined userId c)), w')).
  { apply (findCommunity_after_save _ w c); auto. }
  split; [reflexivity |]. split; [reflexivity |]. split; [| split].
  - intros u Hin Hid. subst w'. cbn [users set_users] in Hin.
    apply in_map_iff in Hin as (u0 & <- & _).
    destruct (String.eqb_spec (User._id u0) userId) as [E | E].
    + cbn. apply addToSet_In.
    + contradiction.
  - subst w'. cbn [users set_users]. apply length_map.
  - unfold joinCommunity, try_catch, bind. rewrite Hres'.
    replace (isBanned (joined userId c) (ru_id (user req))) with false
      by (symmetry; exact Hban).
    fold userId. rewrite isMember_joined. split; reflexivity.
Qed.
End Join.

Section Create.
Context {P : Platform}.

Lemma createCommunity_duplicate (req : Request) (w : World) :
  falsy (b_name (body req)) = false ->
  falsy (b_description (body req)) = false ->
  falsy_multi (b_categories (body req)) = false ->
  faults w CommunityCreate = None ->
  name_taken (str (b_name (body req))) (communities w) = true ->
  createCommunity req w
  = (Returned (mkResponse 400
       [("success", VBool false);
        ("message", VStr "A community with this name already exists.")]), w).
Proof.
  intros Hn Hd Hc F1 Htaken.
  unfold createCommunity, try_catch, bind. rewrite Hn, Hd, Hc. cbn [orb].
  unfold Community_create, await, bind, gets, throw.
  unfold name_taken in Htaken. rewrite F1, Htaken. reflexivity.
Qed.

Lemma createCommunity_fresh (req : Request) (w : World) :
  falsy (b_name (body req)) = false ->
  falsy (b_description (body req)) = false ->
  falsy_multi (b_categories (body req)) = false ->
  faults w CommunityCreate = None ->
  faults w UserFindByIdAndUpdate = None ->
  name_taken (str (b_name (body req))) (communities w) = false ->
  createCommunity req w
  = (Returned (mkResponse 201
       [("success", VBool true);
        ("message", VStr "Community created successfully.");
        ("data", VCommunity (founded req w))]),
     set_users
       (map (fun u => if String.eqb (User._id u) (ru_id (user req))
                      then User.set_joined
                             (addToSet (gen_oid w (tick w))
                                       (User.joinedCommunities u)) u
                      else u) (users w))
       (set_communities (communities w ++ [founded req w])
          (set_tick (S (tick w)) w))).
Proof.
  intros Hn Hd Hc F1 F2 Hfree.
  unfold createCommunity, try_catch, bind. rewrite Hn, Hd, Hc. cbn [orb].
  unfold Community_create, await, bind, gets, throw, modify, ret, fresh_oid.
  unfold name_taken in Hfree. rewrite F1, Hfree.
  unfold User_addJoined, await, modify, respond, ret.
  cbn [faults set_communities set_tick]. rewrite F2. reflexivity.
Qed.

(** X2.  A [createCommunity] with name, description and categories, whose
    name and slug are free, with a store that answers: the answer is 201
    with the new community, which is appended to the collection with the
    creator as member; every stored user with the creator's id has its id
    among [joinedCommunities]; and the same request once more is refused
    with the 400 duplicate answer and changes nothing. *)
Theorem createCommunity_creates (req : Request) (w : World) :
  falsy (b_name (body req)) = false ->
  falsy (b_description (body req)) = false ->
  falsy_multi (b_categories (body req)) = false ->
  faults w CommunityCreate = None ->
  faults w UserFindByIdAndUpdate = None ->
  name_taken (str (b_name (body req))) (communities w) = false ->
  let done := createCommunity req w in
  let c := founded req w in
  sent done = Some (mkResponse 201
                      [("success", VBool true);
                       ("message", VStr "Community created successfully.");
                       ("data", VCommunity c)])
  /\ communities (after done) = communities w ++ [c]
  /\ isMember c (ru_id (user req)) = true
  /\ (forall u, In u (users (after done)) -> User._id u = ru_id (user req) ->
        In (Community._id c) (User.joinedCommunities u))
  /\ sent (createCommunity req (after done))
     = Some (mkResponse 400
               [("success", VBool false);
                ("message", VStr "A community with this name already exists.")])
  /\ after (createCommunity req (after done)) = after done.
Proof.
  intros Hn Hd Hc F1 F2 Hfree done c. subst done c.
  rewrite (createCommunity_fresh req w Hn Hd Hc F1 F2 Hfree).
  unfold sent, after. cbn [fst snd].
  set (w' := set_users _ _).
  split; [reflexivity |]. split; [reflexivity |].
  split; [cbn; now rewrite String.eqb_refl |].
  split.
  { intros u Hin Hid. subst w'. cbn [users set_users] in Hin.
    apply in_map_iff in Hin as (u0 & <- & _).
    destruct (String.eqb_spec (User._id u0) (ru_id (user req))) as [E | E].
    - cbn. apply addToSet_In.
    - contradiction. }
  rewrite (createCommunity_duplicate req w' Hn Hd Hc F1).
  - split; reflexivity.
  - subst w'. cbn [communities set_users set_communities].
    unfold name_taken. rewrite existsb_app. cbn [existsb founded Community.name].
    rewrite String.eqb_refl. cbn [orb]. apply orb_true_r.
Qed.
End Create.

Section Register.
Context {P : Platform}.

Lemma try_catch_cases {A} (m : Eff A) (h : Error -> Eff A) (w : World)
  (Q : outcome A * World -> Prop) :
  (forall a w', m w = (Returned a, w') -> Q (Returned a, w')) ->
  (forall e w', m w = (Thrown e, w') -> Q (h e w')) ->
  Q (try_catch m h w).
Proof.
  intros Hr Ht. unfold try_catch. destruct (m w) as [[a | e] w']; auto.
Qed.

(** X3.  Whatever the request and the store, an answer of [register] is
    the 400 of the first guard, a 201, a 500, or the 400 that reports a
    Mongoose validation error; its body never has a [status] key, so the
    four [status: 'fail'] answers of the password, email, bio and size
    guards are never sent. *)
Theorem register_answers (req : Request) (w : World) (r : Response) :
  sent (register req w) = Some r ->
  (r = incomplete
   \/ status r = 201%Z
   \/ status r = 500%Z
   \/ exists reason,
        r = mkResponse 400 [("success", VBool false);
                            ("message", VStr ("Validation error: " +:+ reason))])
  /\ field "status" (json r) = None.
Proof.
  unfold register. apply try_catch_cases.
  - intros a w' Hrun. unfold sent. cbn [fst]. intros [= <-].
    revert Hrun. destruct (file req) as [f |] eqn:Hf.
    2:{ intros [= <- <-]. split; [now left | reflexivity]. }
    destruct (falsy _ || falsy _ || falsy _ || falsy _ || falsy_multi _).
    { intros [= <- <-]. split; [now left | reflexivity]. }
    unfold unlink_staged_sync. rewrite Hf.
    destruct (_ <? 6)%nat; [discriminate |].
    destruct (negb (email_matches _)); [discriminate |].
    destruct (250 <? _)%nat; [discriminate |].
    destruct (MAX_IMAGE_SIZE <? size f)%Z; [discriminate |].
    unfold bind, User_findOne, await, gets.
    destruct (faults w UserFindOne); [discriminate |].
    destruct (List.find _ (users w)); [discriminate |].
    unfold User_create, await, bind, fresh_oid, modify, ret.
    destruct (faults w UserCreate); [discriminate |].
    cbn [faults set_users set_tick].
    unfold generateOTP, random_code, bind, gets, ret.
    unfold User_save, await, modify. cbn [faults set_users set_tick].
    destruct (faults w UserSave); [discriminate |].
    unfold Notification_create, await, modify, respond, ret.
    cbn [faults set_users set_tick].
    destruct (faults w NotificationCreate); [discriminate |].
    intros [= <- <-]. split; [right; now left | reflexivity].
  - intros e w' _. unfold sent, bind.
    assert (Hclean : exists w'',
      match file req with
      | Some f => try_catch (fs_unlink (path f)) (fun _ => ret tt)
      | None => ret tt
      end w' = (Returned tt, w'')).
    { destruct (file req); [| now eexists].
      unfold try_catch. destruct (fs_unlink _ _) as [[[] | ?] ?]; now eexists. }
    destruct Hclean as [w'' ->].
    destruct (String.eqb (err_name e) "ValidationError"); cbn;
      intros [= <-]; (split; [| reflexivity]).
    + right. right. right. now eexists.
    + right. right. now left.
Qed.

Lemma register_accepts (req : Request) (f : File) (w : World) :
  acceptable req f ->
  faults w UserFindOne = None -> faults w UserCreate = None ->
  faults w UserSave = None -> faults w NotificationCreate = None ->
  List.find (same_email_or_name req) (users w) = None ->
  let u := enrolled req f w in
  let code := gen_otp w (S (tick w)) in
  register req w
  = (Returned (mkResponse 201
       [("success", VBool true);
        ("message", VStr "Registration successful. Please check your notifications for OTP.");
        ("token", VStr (jwt_sign (User._id u)));
        ("user",
         VObj [("id", VStr (User._id u));
               ("username", VStr (User.username u));
               ("email", VStr (User.email u));
               ("bio", VStr (User.bio u));
               ("profileImage", VStr ("uploads/" +:+ filename f));
               ("isEmailVerified", VBool false);
               ("interests", VStrs (User.interests u));
               ("otp", VStr code)])]),
     set_notifications
       (notifications w
        ++ [Notification.mk (User._id u) "otp" "🔐 Email Verification OTP"
              ("Your OTP for email verification is: " +:+ code
               +:+ ". This code will expire in 10 minutes.")
              [("otp", code); ("purpose", "email_verification")]])
       (set_users
          (map (fun x => if String.eqb (User._id x) (User._id u) then u else x)
               (users w
                ++ [User.set_otp None None u]))
          (set_tick (S (S (tick w))) w))).
Proof.
  intros (Hf & Hu & He & Hp & Hb & Hi & Hlen & Hmail & Hbio & Hsize)
    F1 F2 F3 F4 Hnone u code. subst u code.
  unfold register, try_catch. rewrite Hf, Hu, He, Hp, Hb, Hi. cbn [orb].
  apply Nat.ltb_ge in Hlen. rewrite Hlen. rewrite Hmail. cbn [negb].
  apply Nat.ltb_ge in Hbio. rewrite Hbio.
  apply Z.ltb_ge in Hsize. rewrite Hsize.
  unfold bind, User_findOne, await, gets. rewrite F1.
  unfold same_email_or_name in Hnone. rewrite Hnone.
  unfold User_create, await, bind, fresh_oid, modify, ret. rewrite F2.
  cbn [faults set_users set_tick].
  unfold generateOTP, random_code, bind, gets, ret.
  unfold User_save, await, modify. cbn [faults set_users set_tick]. rewrite F3.
  unfold Notification_create, await, modify, respond, ret.
  cbn [faults set_users set_tick]. rewrite F4.
  reflexivity.
Qed.

Lemma find_app_last {A} (f : A -> bool) (l : list A) (x : A) :
  List.find f l = None -> f x = true -> List.find f (l ++ [x]) = Some x.
Proof.
  intros Hl Hx. induction l as [| y l IH]; cbn in *; [now rewrite Hx |].
  destruct (f y); [discriminate | now apply IH].
Qed.

Lemma no_such_email (req : Request) (us : list User.t) :
  List.find (same_email_or_name req) us = None ->
  List.find (has_email (b_email (body req))) us = None.
Proof.
  induction us as [| x us IH]; cbn; [reflexivity |].
  unfold same_email_or_name at 1, has_email at 1.
  destruct (String.eqb (User.email x) _); cbn; [discriminate |].
  destruct (String.eqb (User.username x) _); [discriminate | exact IH].
Qed.

(** The user a later query by email finds after an accepted registration. *)
Lemma register_stores (req : Request) (f : File) (w : World) :
  acceptable req f ->
  faults w UserFindOne = None -> faults w UserCreate = None ->
  faults w UserSave = None -> faults w NotificationCreate = None ->
  List.find (same_email_or_name req) (users w) = None ->
  List.find (has_email (b_email (body req))) (users (after (register req w)))
  = Some (enrolled req f w).
Proof.
  intros Hok F1 F2 F3 F4 Hnone.
  rewrite (register_accepts req f w Hok F1 F2 F3 F4 Hnone).
  unfold after. cbn [snd users set_notifications set_users].
  apply (find_after_save _ _ (User.set_otp None None (enrolled req f w))).
  - apply find_app_last; [now apply no_such_email |].
    unfold has_email. cbn. apply String.eqb_refl.
  - reflexivity.
  - unfold has_email. cbn. apply String.eqb_refl.
Qed.

(** X4.  An accepted registration (every guard passed, no user with the
    email or the username, a store that answers): the answer is 201 with a
    token for the new id; the user a query by email then finds is
    unverified, holds the hash of the password and the path of the staged
    image, and the code the environment gave with an expiry ten minutes
    ahead; one [otp] notification carrying that code is appended for the
    user; one user is added and the upload directory is untouched. *)
Theorem register_enrols (req : Request) (f : File) (w : World) :
  acceptable req f ->
  faults w UserFindOne = None -> faults w UserCreate = None ->
  faults w UserSave = None -> faults w NotificationCreate = None ->
  List.find (same_email_or_name req) (users w) = None ->
  let done := register req w in
  let code := gen_otp w (S (tick w)) in
  status <$> sent done = Some 201%Z
  /\ (exists u,
        List.find (has_email (b_email (body req))) (users (after done)) = Some u
        /\ User.isEmailVerified u = false
        /\ User.password u = hash (str (b_password (body req)))
        /\ User.profileImage u = Some ("uploads/" +:+ filename f)
        /\ User.emailVerificationOTP u = Some code
        /\ User.otpExpires u = Some (now w + TEN_MINUTES)%Z
        /\ (json <$> sent done) ≫= field "token"
           = Some (VStr (jwt_sign (User._id u)))
        /\ exists n,
             notifications (after done) = notifications w ++ [n]
             /\ Notification.user n = User._id u
             /\ Notification.type n = "otp"
             /\ Notification.data n
                = [("otp", code); ("purpose", "email_verification")])
  /\ length (users (after done)) = S (length (users w))
  /\ disk (after done) = disk w.
Proof.
  intros Hok F1 F2 F3 F4 Hnone done code.
  pose proof (register_stores req f w Hok F1 F2 F3 F4 Hnone) as Hfind.
  fold done in Hfind. subst done code.
  rewrite (register_accepts req f w Hok F1 F2 F3 F4 Hnone) in *.
  unfold sent, after in *. cbn [fst snd] in *.
  split; [reflexivity |]. split; [| split].
  - exists (enrolled req f w). split; [exact Hfind |].
    do 6 (split; [reflexivity |]).
    eexists. split; [reflexivity |]. repeat split.
  - cbn [users set_notifications set_users].
    rewrite length_map, length_app. cbn. lia.
  - reflexivity.
Qed.

(** The OTP branch of [verifyEmail] for a stored, unverified user. *)
Lemma verifyEmail_accepts (req : Request) (w : World) (u : User.t) :
  falsy (b_email (body req)) = false ->
  falsy (b_otp (body req)) = false ->
  faults w UserFindOne = None -> faults w UserSave = None ->
  faults w NotificationCreate = None ->
  List.find (has_email (b_email (body req))) (users w) = Some u ->
  User.isEmailVerified u = false ->
  verifyOTP u (str (b_otp (body req))) (now w) = true ->
  verifyEmail req w
  = (Returned (mkResponse 200 [("success", VBool true);
                               ("message", VStr "Email verified successfully")]),
     set_notifications
       (notifications w
        ++ [Notification.mk (User._id u) "welcome" "🎉 Welcome to Our Platform!"
              ("Hi " +:+ User.username u
               +:+ "! Your email has been successfully verified. Start exploring and connecting with the community!")
              [("verified", "true")]])
       (set_users
          (map (fun x => if String.eqb (User._id x) (User._id u)
                         then verified u else x) (users w)) w)).
Proof.
  intros He Ho F1 F2 F3 Hu Hnv Hok.
  unfold verifyEmail, try_catch, bind. rewrite He, Ho. cbn [orb].
  unfold User_findOne, await, gets. rewrite F1, Hu, Hnv, Hok. cbn [negb].
  unfold User_save, Notification_create, await, modify, respond, ret.
  rewrite F2. cbn [faults set_users]. rewrite F3. reflexivity.
Qed.

(** X5.  After an accepted registration, [verifyEmail] with the same email
    and the code the registration issued answers 200: the user found by
    email is then verified, its code and expiry are cleared, and one
    [welcome] notification is appended for it. *)
Theorem verifyEmail_after_register (req : Request) (f : File) (w : World)
  (req' : Request) :
  acceptable req f ->
  faults w UserFindOne = None -> faults w UserCreate = None ->
  faults w UserSave = None -> faults w NotificationCreate = None ->
  List.find (same_email_or_name req) (users w) = None ->
  b_email (body req') = b_email (body req) ->
  b_otp (body req') = Some (gen_otp w (S (tick w))) ->
  gen_otp w (S (tick w)) <> "" ->
  let registered := after (register req w) in
  let done := verifyEmail req' registered in
  sent done = Some (mkResponse 200 [("success", VBool true);
                                    ("message", VStr "Email verified successfully")])
  /\ (exists u,
        List.find (has_email (b_email (body req))) (users (after done)) = Some u
        /\ User.isEmailVerified u = true
        /\ User.emailVerificationOTP u = None
        /\ User.otpExpires u = None
        /\ exists n,
             notifications (after done) = notifications registered ++ [n]
             /\ Notification.user n = User._id u
             /\ Notification.type n = "welcome").
Proof.
  intros Hok F1 F2 F3 F4 Hnone He Hcode Hne registered done.
  pose proof (register_stores req f w Hok F1 F2 F3 F4 Hnone) as Hfind.
  fold registered in Hfind.
  assert (Hw : faults registered = faults w /\ now registered = now w).
  { subst registered.
    rewrite (register_accepts req f w Hok F1 F2 F3 F4 Hnone). now split. }
  destruct Hw as [Hfl Hnow].
  destruct Hok as (_ & _ & Hmail & _).
  assert (Hrun := verifyEmail_accepts req' registered (enrolled req f w)).
  rewrite He, Hcode, Hfl, Hnow in Hrun.
  subst done. rewrite Hrun; clear Hrun; auto.
  - unfold sent, after. cbn [fst snd users set_notifications set_users].
    split; [reflexivity |].
    exists (verified (enrolled req f w)). split.
    + apply (find_after_save (has_email (b_email (body req)))
                (users registered) (enrolled req f w)
                (verified (enrolled req f w)) Hfind); [reflexivity |].
      apply find_some in Hfind as [_ Hfind]. exact Hfind.
    + do 3 (split; [reflexivity |]). eexists. repeat split.
  - cbn. destruct (String.eqb_spec (gen_otp w (S (tick w))) ""); congruence.
  - unfold verifyOTP. cbn. rewrite String.eqb_refl. apply Z.ltb_lt.
    unfold TEN_MINUTES. lia.
Qed.

(** X6.  A registration that passes the first guard and is then refused
    (password under six characters, email not matching, bio over 250
    characters, file over the maximum size, or email or username taken):
    the answer is 500 with the message of the [TypeError] that
    [fs.unlinkSync] raises, no user and no notification is added, and the
    staged file is no longer in the upload directory. *)
Theorem register_refusal (req : Request) (f : File) (w : World) :
  file req = Some f ->
  falsy (b_username (body req)) = false ->
  falsy (b_email (body req)) = false ->
  falsy (b_password (body req)) = false ->
  falsy (b_bio (body req)) = false ->
  falsy_multi (b_interests (body req)) = false ->
  refused req f w ->
  faults w FsUnlink = None ->
  let done := register req w in
  sent done = Some (mkResponse 500
                      [("success", VBool false);
                       ("message", VStr "fs.unlinkSync is not a function")])
  /\ users (after done) = users w
  /\ notifications (after done) = notifications w
  /\ ~ In (path f) (disk (after done)).
Proof.
  intros Hf Hu He Hp Hb Hi Href F done. subst done.
  assert (Hrun : register req w
    = (Returned (mkResponse 500
         [("success", VBool false);
          ("message", VStr "fs.unlinkSync is not a function")]),
       if existsb (String.eqb (path f)) (disk w)
       then set_disk (List.filter (fun x => negb (String.eqb (path f) x))
                                  (disk w)) w
       else w)).
  { unfold register, try_catch. rewrite Hf, Hu, He, Hp, Hb, Hi. cbn [orb].
    assert (Hthrow : forall (e : Error) (k : unit -> Eff Response) (w0 : World),
               bind (throw e) k w0 = (Thrown e, w0)) by reflexivity.
    assert (Hcatch :
      (match file req with
       | Some f0 => try_catch (fs_unlink (path f0)) (fun _ => ret tt)
       | None => ret tt
       end ;;;
       (if String.eqb (err_name (TypeError "fs.unlinkSync is not a function"))
                      "ValidationError"
        then respond 400 [("success", VBool false);
                          ("message", VStr ("Validation error: "
                             +:+ err_message
                                   (TypeError "fs.unlinkSync is not a function")))]
        else respond 500 [("success", VBool false);
                          ("message",
                           VStr (or_else
                                   (err_message
                                      (TypeError "fs.unlinkSync is not a function"))
                                   "Server error during registration"))])) w
      = (Returned (mkResponse 500
           [("success", VBool false);
            ("message", VStr "fs.unlinkSync is not a function")]),
         if existsb (String.eqb (path f)) (disk w)
         then set_disk (List.filter (fun x => negb (String.eqb (path f) x))
                                    (disk w)) w
         else w)).
    { rewrite Hf.
      unfold bind, try_catch, fs_unlink, await, bind, gets, modify, throw,
        respond, ret.
      rewrite F. now destruct (existsb _ (disk w)). }
    rewrite Hf in Hcatch.
    unfold unlink_staged_sync, fs_unlinkSync. rewrite Hf.
    destruct (_ <? 6)%nat eqn:T1; [rewrite Hthrow; exact Hcatch |].
    destruct (email_matches _) eqn:T2; cbn [negb];
      [| rewrite Hthrow; exact Hcatch].
    destruct (250 <? _)%nat eqn:T3; [rewrite Hthrow; exact Hcatch |].
    destruct (MAX_IMAGE_SIZE <? size f)%Z eqn:T4;
      [rewrite Hthrow; exact Hcatch |].
    destruct Href as [H | [H | [H | [H | (F1 & u & Hdup)]]]].
    - apply Nat.ltb_lt in H. congruence.
    - congruence.
    - apply Nat.ltb_lt in H. congruence.
    - apply Z.ltb_lt in H. congruence.
    - unfold bind at 1, User_findOne, await, gets. rewrite F1.
      unfold same_email_or_name in Hdup. rewrite Hdup.
      rewrite Hthrow. exact Hcatch. }
  rewrite Hrun. unfold sent, after. cbn [fst snd].
  split; [reflexivity |].
  destruct (existsb (String.eqb (path f)) (disk w)) eqn:E;
    (split; [reflexivity |]; split; [reflexivity |]).
  - cbn [disk set_disk]. intros Hin. apply filter_In in Hin as [_ Hin].
    now rewrite String.eqb_refl in Hin.
  - intros Hin.
    assert (E' : existsb (String.eqb (path f)) (disk w) = true).
    { apply existsb_exists. exists (path f).
      split; [exact Hin | apply String.eqb_refl]. }
    congruence.
Qed.
End Register.
Section Codes.
Context {P : Platform}.

(** X7.  [forgotPassword] with an email and a store that answers.  For an
    email no user has, the answer is the generic 200 and the world is
    untouched.  For a known email the answer carries the code the
    environment gave; the user found by email afterwards holds that code
    with an expiry ten minutes ahead; one [otp] notification carrying the
    code is appended for the user; communities and posts are untouched. *)
Theorem forgotPassword_outcomes (req : Request) (w : World) :
  falsy (b_email (body req)) = false ->
  faults w UserFindOne = None -> faults w UserSave = None ->
  faults w NotificationCreate = None ->
  let done := forgotPassword req w in
  match List.find (has_email (b_email (body req))) (users w) with
  | None =>
      done = (Returned (mkResponse 200
                [("success", VBool true);
                 ("message", VStr "If the account exists, a password reset code has been sent to your notifications.")]),
              w)
  | Some u =>
      let code := gen_otp w (tick w) in
      (json <$> sent done) ≫= field "otp" = Some (VStr code)
      /\ List.find (has_email (b_email (body req))) (users (after done))
         = Some (User.set_reset (Some code) (Some (now w + TEN_MINUTES)%Z) u)
      /\ notifications (after done)
         = notifications w
           ++ [Notification.mk (User._id u) "otp" "🔐 Password Reset Code"
                 ("Your one-time code for password reset is: " +:+ code
                  +:+ ". This code will expire in 10 minutes.")
                 [("otp", code); ("purpose", "password_reset")]]
      /\ communities (after done) = communities w
      /\ posts (after done) = posts w
  end.
Proof.
  intros He F1 F2 F3 done. subst done.
  destruct (List.find _ (users w)) as [u |] eqn:Hu.
  - assert (Hrun : forgotPassword req w
      = (Returned (mkResponse 200
           [("success", VBool true);
            ("message", VStr "Password reset code successfully sent to your notifications.");
            ("otp", VStr (gen_otp w (tick w)))]),
         set_notifications
           (notifications w
            ++ [Notification.mk (User._id u) "otp" "🔐 Password Reset Code"
                  ("Your one-time code for password reset is: "
                   +:+ gen_otp w (tick w)
                   +:+ ". This code will expire in 10 minutes.")
                  [("otp", gen_otp w (tick w)); ("purpose", "password_reset")]])
           (set_users
              (map (fun x => if String.eqb (User._id x) (User._id u)
                             then User.set_reset (Some (gen_otp w (tick w)))
                                    (Some (now w + TEN_MINUTES)%Z) u
                             else x) (users w))
              (set_tick (S (tick w)) w)))).
    { unfold forgotPassword, try_catch, bind. rewrite He.
      unfold User_findOne, await, gets. rewrite F1.
      unfold has_email in Hu. rewrite Hu.
      unfold getResetPasswordOTP, random_code, bind, gets, ret.
      cbn [now set_tick].
      unfold User_save, Notification_create, await, modify, respond, ret.
      cbn [faults set_tick set_users]. rewrite F2.
      cbn [faults set_tick set_users]. rewrite F3. reflexivity. }
    rewrite Hrun. unfold sent, after. cbn [fst snd].
    split; [reflexivity |]. split; [| repeat split].
    cbn [users set_notifications set_users].
    apply (find_after_save (has_email (b_email (body req))) (users w) u
             (User.set_reset (Some (gen_otp w (tick w)))
                (Some (now w + TEN_MINUTES)%Z) u) Hu); [reflexivity |].
    apply find_some in Hu as [_ Hu]. exact Hu.
  - unfold forgotPassword, try_catch, bind. rewrite He.
    unfold User_findOne, await, gets. rewrite F1.
    unfold has_email in Hu. rewrite Hu. reflexivity.
Qed.

Lemma resetPassword_accepts (req : Request) (w : World) (u : User.t) :
  well_formed req ->
  faults w UserFindOne = None -> faults w UserSave = None ->
  List.find (has_email (b_email (body req))) (users w) = Some u ->
  verifyResetPasswordOTP u (str (b_otp (body req))) (now w) = true ->
  resetPassword req w
  = (Returned (mkResponse 200
       [("success", VBool true);
        ("message", VStr "Password successfully reset! You can now log in with your new password.")]),
     set_users
       (map (fun x => if String.eqb (User._id x) (User._id u)
                      then User.set_reset None None
                             (User.set_password
                                (hash (str (b_newPassword (body req)))) u)
                      else x) (users w)) w).
Proof.
  intros (He & Ho & Hn & Hlen) F1 F2 Hu Hok.
  unfold resetPassword, try_catch, bind. rewrite He, Ho, Hn. cbn [orb].
  apply Nat.ltb_ge in Hlen. rewrite Hlen.
  unfold User_findOne, User_save, await, gets, modify, respond, ret.
  rewrite F1. unfold has_email in Hu. rewrite Hu. rewrite Hok. cbn [negb].
  rewrite F2. reflexivity.
Qed.

(** X8.  A well-formed [resetPassword] with the valid, unexpired code of an
    existing user answers 200; the user found by email afterwards holds the
    hash of the new password and no reset code or expiry; no user is added
    or lost; and the same request once more gets the invalid-OTP answer:
    a code works once. *)
Theorem resetPassword_once (req : Request) (w : World) (u : User.t) :
  well_formed req ->
  faults w UserFindOne = None -> faults w UserSave = None ->
  List.find (has_email (b_email (body req))) (users w) = Some u ->
  verifyResetPasswordOTP u (str (b_otp (body req))) (now w) = true ->
  let done := resetPassword req w in
  status <$> sent done = Some 200%Z
  /\ (exists u',
        List.find (has_email (b_email (body req))) (users (after done)) = Some u'
        /\ User.password u' = hash (str (b_newPassword (body req)))
        /\ User.resetPasswordToken u' = None
        /\ User.resetPasswordExpires u' = None
        /\ User._id u' = User._id u)
  /\ length (users (after done)) = length (users w)
  /\ sent (resetPassword req (after done)) = Some invalid_otp.
Proof.
  intros Hwf F1 F2 Hu Hok done. subst done.
  rewrite (resetPassword_accepts req w u Hwf F1 F2 Hu Hok).
  unfold sent, after. cbn [fst snd users set_users].
  set (u' := User.set_reset None None _).
  assert (Hu' : List.find (has_email (b_email (body req)))
                  (map (fun x => if String.eqb (User._id x) (User._id u)
                                 then u' else x) (users w)) = Some u').
  { apply (find_after_save _ _ u u' Hu); [reflexivity |].
    apply find_some in Hu as [_ Hu]. exact Hu. }
  split; [reflexivity |]. split; [| split].
  - exists u'. split; [exact Hu' |]. repeat split.
  - apply length_map.
  - rewrite (resetPassword_rejects req _ u' Hwf); auto.
Qed.

(** X9.  Whatever the request and the store, a [verifyEmail] that answers
    400 or 404 leaves the world as it was: unlike [resetPassword], a wrong
    or expired verification code does not clear the stored code. *)
Theorem verifyEmail_refusal_changes_nothing (req : Request) (w : World)
  (r : Response) :
  sent (verifyEmail req w) = Some r ->
  status r = 400%Z \/ status r = 404%Z ->
  after (verifyEmail req w) = w.
Proof.
  unfold verifyEmail. apply try_catch_cases.
  - intros a w' Hrun. unfold sent, after. cbn [fst snd]. intros [= <-] Hst.
    revert Hrun. destruct (falsy _ || falsy _); [now intros [= _ <-] |].
    unfold bind, User_findOne, await, gets.
    destruct (faults w UserFindOne); [discriminate |].
    destruct (List.find _ (users w)) as [u |]; [| now intros [= _ <-]].
    destruct (User.isEmailVerified u); [now intros [= _ <-] |].
    destruct (negb _); [now intros [= _ <-] |].
    unfold User_save, Notification_create, await, modify, respond, ret.
    destruct (faults w UserSave); [discriminate |].
    cbn [faults set_users].
    destruct (faults w NotificationCreate); [discriminate |].
    intros [= <- _]. cbn in Hst. destruct Hst; discriminate.
  - intros e w' _. unfold sent. cbn. intros [= <-] [Hst | Hst]; discriminate.
Qed.

(** X10.  [resendOTP] for a stored, unverified user and a store that
    answers: the answer is 200, the user found by email afterwards holds
    the new code, which verifies now, while any other code, the previous
    one included, verifies at no time; one [otp] notification with the new
    code is appended. *)
Theorem resendOTP_replaces_code (req : Request) (w : World) (u : User.t) :
  falsy (b_email (body req)) = false ->
  faults w UserFindOne = None -> faults w UserSave = None ->
  faults w NotificationCreate = None ->
  List.find (has_email (b_email (body req))) (users w) = Some u ->
  User.isEmailVerified u = false ->
  let done := resendOTP req w in
  let code := gen_otp w (tick w) in
  let u' := User.set_otp (Some code) (Some (now w + TEN_MINUTES)%Z) u in
  sent done = Some (mkResponse 200 [("success", VBool true);
                                    ("message", VStr "OTP sent to your notifications")])
  /\ List.find (has_email (b_email (body req))) (users (after done)) = Some u'
  /\ verifyOTP u' code (now w) = true
  /\ (forall old t, old <> code -> verifyOTP u' old t = false)
  /\ notifications (after done)
     = notifications w
       ++ [Notification.mk (User._id u) "otp" "🔐 New OTP Request"
             ("Your new OTP for email verification is: " +:+ code
              +:+ ". This code will expire in 10 minutes.")
             [("otp", code); ("purpose", "email_verification")]].
Proof.
  intros He F1 F2 F3 Hu Hnv done code u'. subst done.
  assert (Hrun : resendOTP req w
    = (Returned (mkResponse 200 [("success", VBool true);
                                 ("message", VStr "OTP sent to your notifications")]),
       set_notifications
         (notifications w
          ++ [Notification.mk (User._id u) "otp" "🔐 New OTP Request"
                ("Your new OTP for email verification is: " +:+ code
                 +:+ ". This code will expire in 10 minutes.")
                [("otp", code); ("purpose", "email_verification")]])
         (set_users
            (map (fun x => if String.eqb (User._id x) (User._id u)
                           then u' else x) (users w))
            (set_tick (S (tick w)) w)))).
  { unfold resendOTP, try_catch, bind. rewrite He.
    unfold User_findOne, await, gets. rewrite F1, Hu, Hnv.
    unfold generateOTP, random_code, bind, gets, ret. cbn [now set_tick].
    unfold User_save, Notification_create, await, modify, respond, ret.
    cbn [faults set_tick set_users]. rewrite F2.
    cbn [faults set_tick set_users]. rewrite F3. reflexivity. }
  rewrite Hrun. unfold sent, after. cbn [fst snd users set_notifications set_users].
  split; [reflexivity |]. split; [| split; [| split; [| reflexivity]]].
  - apply (find_after_save _ _ u u' Hu); [reflexivity |].
    apply find_some in Hu as [_ Hu]. exact Hu.
  - unfold verifyOTP. cbn. rewrite String.eqb_refl. apply Z.ltb_lt.
    unfold TEN_MINUTES. lia.
  - intros old t Hne. unfold verifyOTP. cbn.
    destruct (String.eqb_spec code old); [congruence | reflexivity].
Qed.
End Codes.

Lemma dot_then_more_spec (l : list ascii) :
  dot_then_more l = true <->
  exists m d post, l = m ++ "."%char :: d :: post /\ Forall dot m /\ dot d.
Proof.
  induction l as [| c rest IH]; cbn.
  - split; [discriminate |]. intros (m & d & post & E & _).
    now destruct m.
  - destruct (is_newline c) eqn:Hc.
    + split; [discriminate |]. intros (m & d & post & E & Hm & Hd).
      destruct m as [| c' m]; injection E as -> E.
      * discriminate.
      * apply Forall_cons in Hm as [Hc' _]. unfold dot in Hc'. congruence.
    + rewrite orb_true_iff, andb_true_iff, IH. split.
      * intros [[Hdot Hnext] | (m & d & post & -> & Hm & Hd)].
        -- apply Ascii.eqb_eq in Hdot as ->.
           destruct rest as [| d post]; [discriminate |].
           exists [], d, post. repeat split; [constructor |].
           unfold dot. now destruct (is_newline d).
        -- exists (c :: m), d, post. repeat split; [| exact Hd].
           now constructor.
      * intros (m & d & post & E & Hm & Hd).
        destruct m as [| c' m]; injection E as -> E.
        -- left. subst rest. split; [apply Ascii.eqb_refl |].
           unfold dot in Hd. now rewrite Hd.
        -- right. exists m, d, post. apply Forall_cons in Hm as [_ Hm].
           now repeat split.
Qed.

Lemma domain_ok_spec (l : list ascii) :
  domain_ok l = true <->
  exists mid d post,
    l = mid ++ "."%char :: d :: post /\ mid <> [] /\ Forall dot mid /\ dot d.
Proof.
  destruct l as [| c rest]; cbn.
  - split; [discriminate |]. intros (mid & d & post & E & _). now destruct mid.
  - rewrite andb_true_iff, dot_then_more_spec. split.
    + intros [Hc (m & d & post & -> & Hm & Hd)].
      exists (c :: m), d, post. repeat split; [discriminate | | exact Hd].
      constructor; [| exact Hm]. unfold dot. now destruct (is_newline c).
    + intros (mid & d & post & E & Hne & Hmid & Hd).
      destruct mid as [| c' m]; [contradiction |]. injection E as -> ->.
      apply Forall_cons in Hmid as [Hc Hm]. split.
      * unfold dot in Hc. now rewrite Hc.
      * now exists m, d, post.
Qed.

Lemma email_search_spec (l : list ascii) :
  email_search l = true <->
  exists pre c rest,
    l = pre ++ c :: "@"%char :: rest /\ dot c /\ domain_ok rest = true.
Proof.
  induction l as [| c tl IH].
  - cbn. split; [discriminate |]. intros (pre & c & rest & E & _).
    now destruct pre.
  - cbn [email_search]. destruct tl as [| a rest].
    + split; [discriminate |]. intros (pre & c' & rest & E & _).
      destruct pre as [| ? [| ? ?]]; discriminate.
    + rewrite orb_true_iff, !andb_true_iff, IH. split.
      * intros [[[Hc Ha] Hd] | (pre & c' & rest' & E & Hc' & Hd)].
        -- apply Ascii.eqb_eq in Ha as ->. exists [], c, rest.
           repeat split; [| exact Hd]. unfold dot. now destruct (is_newline c).
        -- exists (c :: pre), c', rest'. rewrite E. now repeat split.
      * intros (pre & c' & rest' & E & Hc' & Hd).
        destruct pre as [| c0 pre]; cbn in E; simplify_eq.
        -- left. split; [split |]; [| apply Ascii.eqb_refl | exact Hd].
           unfold dot in Hc'. now rewrite Hc'.
        -- right. now exists pre, c', rest'.
Qed.

(** X11.  The search for [/.+@.+\..+/] succeeds exactly on the texts that
    contain a character other than a line terminator, an at-sign, one or
    more such characters, a dot and one more such character, in this
    order and side by side. *)
Theorem email_matches_spec (email : string) :
  email_matches email = true <->
  exists pre c mid d post,
    list_ascii_of_string email
    = pre ++ [c; "@"%char] ++ mid ++ ["."%char; d] ++ post
    /\ dot c /\ mid <> [] /\ Forall dot mid /\ dot d.
Proof.
  unfold email_matches. rewrite email_search_spec. split.
  - intros (pre & c & rest & E & Hc & Hd).
    apply domain_ok_spec in Hd as (mid & d & post & -> & Hne & Hmid & Hd).
    exists pre, c, mid, d, post. now repeat split.
  - intros (pre & c & mid & d & post & E & Hc & Hne & Hmid & Hd).
    exists pre, c, (mid ++ "."%char :: d :: post). repeat split; [exact E | exact Hc |].
    apply domain_ok_spec. now exists mid, d, post.
Qed.

Lemma split_commas_nonempty (s : string) : split_commas s <> [].
Proof.
  destruct s as [| c s]; cbn; [discriminate |].
  destruct (Ascii.eqb c ","); [discriminate |].
  destruct (split_commas s); discriminate.
Qed.

Lemma concat_cons_char (c : ascii) (h : string) (t : list string) :
  String.concat "," (String c h :: t) = String c (String.concat "," (h :: t)).
Proof. destruct t; reflexivity. Qed.

(** [split(',')] loses nothing and leaves no comma. *)
Lemma split_commas_join (s : string) :
  String.concat "," (split_commas s) = s
  /\ Forall (fun piece => ~ In ","%char (list_ascii_of_string piece))
            (split_commas s).
Proof.
  induction s as [| c s [IHj IHc]]; cbn [split_commas].
  - split; [reflexivity |]. constructor; [| constructor]. intros [].
  - destruct (Ascii.eqb_spec c ",") as [-> | Hc].
    + split.
      * pose proof (split_commas_nonempty s) as Hne.
        destruct (split_commas s) as [| h t] eqn:E; [contradiction |].
        cbn [String.concat]. cbn. now rewrite <- IHj.
      * constructor; [intros [] | exact IHc].
    + pose proof (split_commas_nonempty s) as Hne.
      destruct (split_commas s) as [| h t] eqn:E; [contradiction |].
      split.
      * rewrite concat_cons_char. now rewrite IHj.
      * apply Forall_cons in IHc as [Hh Ht]. constructor; [| exact Ht].
        cbn. intros [E' | Hin]; [congruence | contradiction].
Qed.

Lemma drop_spaces_head (l : list ascii) :
  match drop_spaces l with
  | [] => True
  | c :: _ => is_space c = false
  end.
Proof.
  induction l as [| c l IH]; cbn; [exact I |].
  destruct (is_space c) eqn:E; [exact IH | exact E].
Qed.

Lemma drop_spaces_last (l : list ascii) :
  match rev l with
  | [] => True
  | c :: _ => is_space c = false
  end ->
  match rev (drop_spaces l) with
  | [] => True
  | c :: _ => is_space c = false
  end.
Proof.
  induction l as [| c l IH]; cbn; [auto |].
  destruct (is_space c) eqn:E; [| auto].
  intros H. apply IH. destruct (rev l) as [| d r]; [exact I |]. exact H.
Qed.

Lemma trim_trimmed (s : string) : trimmed (trim s).
Proof.
  unfold trimmed, trim. rewrite list_ascii_of_string_of_list_ascii.
  split.
  - pose proof (drop_spaces_head (rev (drop_spaces (list_ascii_of_string s)))) as H.
    pose proof (drop_spaces_last (rev (drop_spaces (list_ascii_of_string s)))) as H'.
    rewrite rev_involutive in H'.
    apply H'. apply drop_spaces_head.
  - rewrite rev_involutive. apply drop_spaces_head.
Qed.

Lemma drop_spaces_incl (c : ascii) (l : list ascii) :
  In c (drop_spaces l) -> In c l.
Proof.
  induction l as [| d l IH]; cbn; [auto |].
  destruct (is_space d); [right; now apply IH | auto].
Qed.

Lemma trim_incl (c : ascii) (s : string) :
  In c (list_ascii_of_string (trim s)) -> In c (list_ascii_of_string s).
Proof.
  unfold trim. rewrite list_ascii_of_string_of_list_ascii.
  intros H. apply in_rev in H. apply drop_spaces_incl in H.
  apply in_rev in H. now apply drop_spaces_incl in H.
Qed.

Section Interests.
Context {P : Platform}.

(** X12.  The interests [register] stores for a string that [JSON.parse]
    rejects, read as a comma-separated list: every stored interest is
    non-empty, has neither leading nor trailing white space, and contains
    no comma. *)
Theorem prepare_interests_shape (s : string) :
  JSON_parse s = None ->
  Forall (fun i => i <> "" /\ trimmed i
                   /\ ~ In ","%char (list_ascii_of_string i))
         (prepare_interests (Some (One s))).
Proof.
  intros E. unfold prepare_interests. rewrite E.
  apply Forall_forall. intros i Hin. apply list_elem_of_In in Hin.
  apply filter_In in Hin as [Hin Hlen].
  apply in_map_iff in Hin as (piece & <- & Hpiece). split; [| split].
  - intros E'. rewrite E' in Hlen. discriminate.
  - apply trim_trimmed.
  - intros Hc. apply trim_incl in Hc.
    pose proof (proj2 (split_commas_join s)) as Hall.
    rewrite Forall_forall in Hall.
    apply (Hall piece); [now apply list_elem_of_In | exact Hc].
Qed.
End Interests.

Section Posts.
Context {P : Platform}.

(** X13.  [notifyCommunityMembers] never throws and changes nothing but the
    notification collection, to which it only appends; every notification
    it appends is of type [post], carries the community and post ids, and
    goes to a user other than the author; it appends none when the
    community id is no id or names no community. *)
Theorem notifyCommunityMembers_spares_author (postId : string) (post : Post.t)
  (communityId authorId authorUsername : string) (w : World) :
  let done := notifyCommunityMembers postId post communityId authorId
                authorUsername w in
  fst done = Returned tt
  /\ exists added,
       after done = set_notifications (notifications w ++ added) w
       /\ Forall (fun n => Notification.user n <> authorId
                           /\ Notification.type n = "post"
                           /\ Notification.data n
                              = [("communityId", communityId);
                                 ("postId", postId)]) added
       /\ (ObjectId_isValid communityId = false -> added = [])
       /\ (List.find (by_id communityId) (communities w) = None -> added = []).
Proof.
  cbn zeta.
  unfold notifyCommunityMembers, try_catch, bind, Community_findById,
    Notification_insertMany, await, gets, modify, after, throw, ret.
  assert (Hw : w = set_notifications (notifications w ++ []) w).
  { rewrite app_nil_r. now destruct w. }
  destruct (ObjectId_isValid communityId); cbn.
  2:{ split; [reflexivity |]. exists []. repeat split; auto. }
  destruct (faults w CommunityFindById); cbn.
  { split; [reflexivity |]. exists []. repeat split; auto; discriminate. }
  destruct (List.find _ (communities w)) as [X |]; cbn.
  2:{ split; [reflexivity |]. exists []. repeat split; auto. }
  destruct (faults w NotificationInsertMany); cbn.
  { split; [reflexivity |]. exists []. repeat split; auto; discriminate. }
  split; [reflexivity |]. eexists. split; [reflexivity |].
  split; [| split; discriminate].
  apply Forall_forall. intros n Hn. apply list_elem_of_In in Hn.
  apply in_map_iff in Hn as (m & <- & Hm).
  apply in_map_iff in Hm as (mem & <- & Hmem).
  apply filter_In in Hmem as [_ Hne]. cbn.
  split; [| split; reflexivity].
  intros E. rewrite E, String.eqb_refl in Hne. discriminate.
Qed.

(** X14.  [togglePostVote] on an id that names no post answers 404, and on
    a route parameter that is no id answers 500 with the cast error's
    message; in both cases the world is untouched and nothing is
    broadcast. *)
Theorem togglePostVote_without_post (req : Request) (w : World) :
  (ObjectId_isValid (param req) = true ->
   faults w PostFindById = None ->
   posts w !! ObjectId_cast (param req) = None ->
   togglePostVote req w
   = (Returned (mkResponse 404 [("success", VBool false);
                                ("message", VStr "Post not found.")]), w))
  /\ (ObjectId_isValid (param req) = false ->
      togglePostVote req w
      = (Returned (mkResponse 500 [("success", VBool false);
                                   ("message", VStr "Cast to ObjectId failed")]),
         w)).
Proof.
  split.
  - intros Hv F Hp. unfold togglePostVote, try_catch, bind, Post_findById,
      await, gets. now rewrite Hv, F, Hp.
  - intros Hv. unfold togglePostVote, try_catch, bind, Post_findById.
    now rewrite Hv.
Qed.

(** X15.  An accepted [createPost]: the post stored under the next id has
    the title of the request, or the first 50 characters of the content
    when there is none, the media fields [classify] derives from the staged
    file, no votes, and is not deleted; exactly one [newPost] event with
    the populated post is broadcast to the room named by the community id;
    users and communities are untouched. *)
Theorem createPost_stores_and_broadcasts (req : Request) (w : World) :
  falsy (b_content (body req)) = false ->
  falsy (b_communityId (body req)) = false ->
  app_io req = true ->
  faults w PostCreate = None ->
  faults w PostFindById = None ->
  let done := createPost req w in
  let id := gen_oid w (tick w) in
  let content := str (b_content (body req)) in
  let p := Post.mk (str (b_communityId (body req))) (ru_id (user req)) content
             (if falsy (b_title (body req)) then prefix 50 content
              else str (b_title (body req)))
             (classify (file req)).1.1 (classify (file req)).1.2
             (classify (file req)).2 false ∅ (now w) in
  posts (after done) = <[id := p]> (posts w)
  /\ (exists author,
        emitted (after done)
        = emitted w
          ++ [mkEmitted (str (b_communityId (body req))) "newPost"
                (Some (mkPopulated id p author))])
  /\ users (after done) = users w
  /\ communities (after done) = communities w.
Proof.
  intros Hc Hi Hio F1 F2 done id content p. subst done p.
  unfold createPost, try_catch, bind.
  rewrite Hc, Hi. cbn [orb].
  fold (classify (file req)).
  destruct (classify (file req)) as [[type images] videoUrl].
  unfold Post_create, await, bind, fresh_oid, gets, modify, ret.
  rewrite F1. cbn [faults set_posts set_tick now posts tick gen_oid].
  unfold Post_findById_populated, await, gets, emit.
  cbn [faults set_posts set_tick now posts tick gen_oid users].
  rewrite F2, Hio. rewrite lookup_insert_eq.
  unfold detached, modify, respond, ret, sent, after.
  cbn [fst snd mbind option_bind].
  match goal with
  | |- context [notifyCommunityMembers ?a ?b ?c ?d ?e ?w0] =>
      pose proof (notify_frame a b c d e w0) as Hframe;
      unfold after in Hframe; cbn zeta in Hframe;
      set (w' := snd (notifyCommunityMembers a b c d e w0)) in *
  end.
  rewrite Hframe. cbn.
  split; [reflexivity |]. split; [eexists; reflexivity |]. split; reflexivity.
Qed.

(** X16.  A file [createPost] would store as a video is refused by the
    [fileFilter] of the upload middleware, whatever its mimetype: none of
    [.mp4], [.mov], [.webm] contains one of the words the filter looks
    for. *)
Theorem fileFilter_rejects_video (f : File) (mimetype : string) :
  (classify (Some f)).1.1 = video -> fileFilter f mimetype = false.
Proof.
  unfold classify, fileFilter.
  set (ext := toLowerCase (path_extname (originalname f))).
  destruct (existsb (String.eqb ext) [".jpg"; ".jpeg"; ".png"; ".gif"; ".webp"]);
    [discriminate |].
  destruct (existsb (String.eqb ext) [".mp4"; ".mov"; ".webm"]) eqn:E;
    [| discriminate].
  intros _. cbn in E. rewrite !orb_true_iff in E.
  destruct E as [E | [E | [E | E]]]; try discriminate;
    apply String.eqb_eq in E; rewrite E; reflexivity.
Qed.
End Posts.

Section Lists.
Context {P : Platform}.

(** X17.  Whatever the request and the store, [getAllDiscussionsInCommunity]
    leaves the world as it was and answers 404, 403 or 500, never 200 and
    never with a list: for a resolved community the requester may see, the
    call of [skip] on the mock query throws and the answer is 500. *)
Theorem getAllDiscussionsInCommunity_never_succeeds (idOrSlug : string)
  (req_user : option ReqUser) (page limit : option Z) (w : World) :
  let done := getAllDiscussionsInCommunity idOrSlug req_user page limit w in
  after done = w
  /\ exists r,
       fst done = Returned r
       /\ l_items r = NoItems
       /\ (l_status r = 404%Z \/ l_status r = 403%Z \/ l_status r = 500%Z)
       /\ (forall c,
             findCommunity idOrSlug None None w = (Returned (Some c), w) ->
             shut_out c req_user = false ->
             r = mkListing 500
                   [("success", VBool false);
                    ("message", VStr "Server error fetching discussions.")]
                   NoItems).
Proof.
  cbn zeta. destruct (findCommunity_reads idOrSlug w) as [Hw _].
  unfold getAllDiscussionsInCommunity, try_catch, bind, after in *.
  destruct (findCommunity idOrSlug None None w) as [[[c |] | e] w1] eqn:E;
    cbn in Hw; subst w1.
  - destruct (shut_out c req_user) eqn:Hs; cbn.
    + split; [reflexivity |]. eexists. split; [reflexivity |].
      split; [reflexivity |]. split; [auto |].
      intros c' [= <-]. congruence.
    + split; [reflexivity |]. eexists. split; [reflexivity |].
      split; [reflexivity |]. split; [auto |]. reflexivity.
  - cbn. split; [reflexivity |]. eexists. split; [reflexivity |].
    split; [reflexivity |]. split; [auto |]. discriminate.
  - cbn. split; [reflexivity |]. eexists. split; [reflexivity |].
    split; [reflexivity |]. split; [auto |]. discriminate.
Qed.

(** X18.  [getCommunityInformation] for a community the query returns as
    [c]: the world is untouched; a community that is not private, a hidden
    one included, is served with 200 to anyone; a private one is served
    with 200 to a requester who is a member and refused with 403 to any
    other requester and to an anonymous one. *)
Theorem getCommunityInformation_visibility (idOrSlug : string)
  (req_user : option ReqUser) (w : World) (c : Community.t) :
  findCommunity idOrSlug (Some ("admin", "username avatar email"))
    (Some "-bannedUsers") w = (Returned (Some c), w) ->
  let done := getCommunityInformation idOrSlug req_user w in
  after done = w
  /\ (Community.visibility c <> private ->
      sent done = Some (mkResponse 200 [("success", VBool true);
                                        ("data", VCommunity c)]))
  /\ (Community.visibility c = private ->
      sent done
      = Some (match req_user with
              | Some u =>
                  if isMember c (ru_id u)
                  then mkResponse 200 [("success", VBool true);
                                       ("data", VCommunity c)]
                  else mkResponse 403 [("success", VBool false);
                                       ("message", VStr "This community is private.")]
              | None => mkResponse 403 [("success", VBool false);
                                        ("message", VStr "This community is private.")]
              end)).
Proof.
  intros Hres. cbn zeta.
  unfold getCommunityInformation, try_catch, bind, sent, after.
  rewrite Hres. unfold shut_out.
  split; [| split].
  - now destruct (is_private _ && _).
  - intros Hv. destruct (Community.visibility c); [| contradiction |];
      reflexivity.
  - intros ->. cbn. destruct req_user as [u |]; [| reflexivity].
    now destruct (isMember c (ru_id u)).
Qed.
End Lists.

#[local] Instance newer_trans : Transitive newer.
Proof. intros a b c. unfold newer. lia. Qed.
#[local] Instance newer_total : Total newer.
Proof. intros a b. unfold newer. lia. Qed.

Lemma StronglySorted_take {A} (R : relation A) (n : nat) (l : list A) :
  StronglySorted R l -> StronglySorted R (take n l).
Proof.
  intros H. revert n. induction H as [| x l H IH Hx]; intros [| n]; cbn;
    try constructor; auto.
  apply Forall_forall. intros y Hy. rewrite Forall_forall in Hx.
  apply Hx. apply elem_of_take in Hy as (i & Hi & _).
  eapply list_elem_of_lookup_2, Hi.
Qed.

Lemma StronglySorted_drop {A} (R : relation A) (n : nat) (l : list A) :
  StronglySorted R l -> StronglySorted R (drop n l).
Proof.
  intros H. revert n. induction H as [| x l H IH Hx]; intros [| n]; cbn;
    try constructor; auto.
Qed.

Lemma StronglySorted_map {A B} (R : relation A) (S : relation B) (f : A -> B)
  (l : list A) :
  (forall a b, R a b -> S (f a) (f b)) ->
  StronglySorted R l -> StronglySorted S (map f l).
Proof.
  intros Hf H. induction H as [| x l H IH Hx]; cbn; constructor; auto.
  apply Forall_fmap. eapply Forall_impl; [exact Hx |]. intros a Ha. now apply Hf.
Qed.

Section Pages.
Context {P : Platform}.

Lemma timeline_elem (communityId : string) (w : World) (e : string * Post.t) :
  e ∈ timeline communityId w
  <-> posts w !! e.1 = Some e.2 /\ live_in communityId e = true.
Proof.
  unfold timeline. rewrite merge_sort_Permutation.
  rewrite list_elem_of_In, filter_In, <- list_elem_of_In.
  destruct e as [i p]. rewrite elem_of_map_to_list. tauto.
Qed.

Lemma timeline_NoDup (communityId : string) (w : World) :
  NoDup ((timeline communityId w).*1).
Proof.
  unfold timeline. rewrite merge_sort_Permutation.
  pose proof (NoDup_fst_map_to_list (posts w)) as H.
  induction (map_to_list (posts w)) as [| e l IH]; cbn; [constructor |].
  apply NoDup_cons in H as [He H].
  destruct (live_in communityId e); cbn; [| now apply IH].
  apply NoDup_cons. split; [| now apply IH].
  intros Hin. apply He. apply list_elem_of_fmap in Hin as (e' & -> & Hin).
  apply list_elem_of_fmap. exists e'. split; [reflexivity |].
  apply list_elem_of_In in Hin. apply filter_In in Hin as [Hin _].
  now apply list_elem_of_In.
Qed.

Lemma getCommunityPosts_run (communityId : string) (page limit : positive)
  (w : World) :
  faults w PostFindById = None ->
  let lim := Pos.to_nat limit in
  let total := length (List.filter (live_in communityId)
                                   (map_to_list (posts w))) in
  getCommunityPosts communityId page limit w
  = (Returned (mkListing 200
       [("success", VBool true);
        ("pagination",
         VObj [("total", VNum (Z.of_nat total));
               ("page", VNum (Z.pos page));
               ("pages", VNum (Z.of_nat (pages_of total lim)))])]
       (PostItems
          (map (populated (users w))
               (take lim (drop ((Pos.to_nat page - 1) * lim)
                               (timeline communityId w)))))), w).
Proof.
  intros F. cbn zeta.
  unfold getCommunityPosts, try_catch, bind, await, gets, ret.
  rewrite F. cbv beta iota. now rewrite F.
Qed.

(** X19.  A page of [getCommunityPosts], with a store that answers: the
    world is untouched; the page holds at most [limit] posts; each is
    stored under its id, belongs to the community asked for and is not
    deleted; no post appears twice; and the posts are in order of
    creation, newest first. *)
Theorem getCommunityPosts_page (communityId : string) (page limit : positive)
  (w : World) :
  faults w PostFindById = None ->
  let done := getCommunityPosts communityId page limit w in
  let ps := page_of done in
  after done = w
  /\ length ps <= Pos.to_nat limit
  /\ (forall pp, In pp ps ->
        posts w !! pp_id pp = Some (pp_post pp)
        /\ Post.community (pp_post pp) = communityId
        /\ Post.isDeleted (pp_post pp) = false)
  /\ NoDup (map pp_id ps)
  /\ StronglySorted (fun a b => (Post.createdAt b <= Post.createdAt a)%Z)
       (map pp_post ps).
Proof.
  intros F done ps. subst ps done.
  rewrite (getCommunityPosts_run communityId page limit w F).
  unfold page_of, after. cbn [fst snd l_items].
  set (sel := take _ (drop _ _)).
  assert (Hsub : sel `sublist_of` timeline communityId w).
  { subst sel. etrans; [apply sublist_take | apply sublist_drop]. }
  split; [reflexivity |]. split; [| split; [| split]].
  - rewrite length_map. subst sel. rewrite length_take. lia.
  - intros pp Hin. apply in_map_iff in Hin as (e & <- & He).
    apply list_elem_of_In in He.
    assert (He' : e ∈ timeline communityId w) by (eapply elem_of_sublist; eauto).
    apply timeline_elem in He' as [Hl Hlive]. cbn.
    unfold live_in in Hlive. apply andb_true_iff in Hlive as [Hc Hd].
    apply String.eqb_eq in Hc. apply negb_true_iff in Hd. auto.
  - rewrite map_map. cbn.
    change (NoDup (sel.*1)).
    apply (sublist_NoDup (sel.*1) ((timeline communityId w).*1)).
    + apply timeline_NoDup.
    + now apply fmap_sublist.
  - rewrite map_map. cbn.
    apply (StronglySorted_map newer); [auto |].
    subst sel. apply StronglySorted_take, StronglySorted_drop.
    unfold timeline. apply StronglySorted_merge_sort; apply _.
Qed.

Lemma pages_of_bounds (total lim : nat) :
  0 < lim ->
  total <= pages_of total lim * lim
  /\ (0 < total -> (pages_of total lim - 1) * lim < total).
Proof.
  intros Hlim. unfold pages_of.
  pose proof (Nat.div_mod (total + lim - 1) lim ltac:(lia)) as Hdm.
  pose proof (Nat.mod_upper_bound (total + lim - 1) lim ltac:(lia)) as Hm.
  set (q := (total + lim - 1) / lim) in *.
  set (r := (total + lim - 1) mod lim) in *.
  split; [nia |]. intros Ht. destruct q as [| q]; [nia |]. 
  replace (S q - 1) with q by lia. nia.
Qed.

Lemma timeline_length (communityId : string) (w : World) :
  length (timeline communityId w)
  = length (List.filter (live_in communityId) (map_to_list (posts w))).
Proof. unfold timeline. now rewrite merge_sort_Permutation. Qed.

(** X20.  The pages of [getCommunityPosts] for a community id that is an
    ObjectId, over one state of the store: the page count the answer gives
    is the least number of pages of [limit] posts that holds all matching
    posts; every stored post of the community that is not deleted is on one
    of the pages up to that count; and every page after it is empty. *)
Theorem getCommunityPosts_covers (communityId : string) (limit : positive)
  (w : World) :
  ObjectId_isValid communityId = true ->
  faults w PostFindById = None ->
  let lim := Pos.to_nat limit in
  let total := length (List.filter (live_in communityId)
                                   (map_to_list (posts w))) in
  let pages := pages_of total lim in
  (total <= pages * lim /\ (0 < total -> (pages - 1) * lim < total))
  /\ (forall id p,
        posts w !! id = Some p -> live_in communityId (id, p) = true ->
        exists page author,
          Pos.to_nat page <= pages
          /\ In (mkPopulated id p author)
                (page_of (getCommunityPosts communityId page limit w)))
  /\ (forall page,
        pages < Pos.to_nat page ->
        page_of (getCommunityPosts communityId page limit w) = []).
Proof.
  intros _ F lim total pages.
  pose proof (Pos2Nat.is_pos limit) as Hlim. fold lim in Hlim.
  pose proof (pages_of_bounds total lim Hlim) as [Hup Hlow].
  fold pages in Hup, Hlow.
  split; [now split |]. split.
  - intros id p Hp Hlive.
    assert (Hin : (id, p) ∈ timeline communityId w)
      by now apply timeline_elem.
    apply list_elem_of_lookup in Hin as [i Hi].
    pose proof (lookup_lt_Some _ _ _ Hi) as Hlt.
    rewrite timeline_length in Hlt. fold total in Hlt.
    exists (Pos.of_nat (S (i / lim))). eexists.
    rewrite (getCommunityPosts_run communityId _ limit w F).
    unfold page_of. cbn [fst l_items].
    rewrite Nat2Pos.id by lia. fold lim.
    replace (S (i / lim) - 1) with (i / lim) by lia.
    split.
    + pose proof (Nat.div_mod i lim ltac:(lia)) as Hdm.
      pose proof (Nat.mod_upper_bound i lim ltac:(lia)) as Hm.
      destruct (Nat.le_gt_cases (S (i / lim)) pages) as [H | H]; [exact H |].
      exfalso. nia.
    + apply in_map_iff. exists (id, p). split; [reflexivity |].
      apply list_elem_of_In. apply (list_elem_of_lookup_2 _ (i mod lim)).
      rewrite lookup_take_lt by (apply Nat.mod_upper_bound; lia).
      rewrite lookup_drop.
      replace (i / lim * lim + i mod lim) with i; [exact Hi |].
      rewrite (Nat.div_mod i lim) at 1 by lia. lia.
  - intros page Hpage.
    rewrite (getCommunityPosts_run communityId page limit w F).
    unfold page_of. cbn [fst l_items]. fold lim.
    rewrite drop_ge; [now rewrite take_nil |].
    rewrite timeline_length. fold total. nia.
Qed.
End Pages.


#[local] Instance larger_trans : Transitive larger.
Proof. intros a b c. unfold larger. lia. Qed.
#[local] Instance larger_total : Total larger.
Proof. intros a b. unfold larger. lia. Qed.

Section Mine.
Context {P : Platform}.

Lemma getUserCommunities_run (req_user : ReqUser) (w : World) :
  faults w CommunityFindOne = None ->
  listed (getUserCommunities req_user w)
  = map (project (Some ("admin", "username avatar"))
                 (Some "-bannedUsers -rules"))
        (List.filter (joined_and_listed (ru_id req_user)) (communities w))
  /\ after (getUserCommunities req_user w) = w.
Proof.
  intros F. unfold getUserCommunities, try_catch, bind, Community_find, await,
    gets, ret, listed, after. rewrite F. cbn [fst snd].
  now destruct (map _ _).
Qed.

(** X21.  After an accepted [joinCommunity] of an active community,
    [getUserCommunities] for the same user lists the projections of stored
    communities the user is a member of, active and not hidden; the
    community just joined is among them when it is public; when it is
    hidden, nothing with its id is listed, although the join was
    accepted. *)
Theorem getUserCommunities_after_join (req : Request) (w : World)
  (c : Community.t) :
  faults w CommunityFindOne = None ->
  faults w CommunitySave = None ->
  faults w UserFindByIdAndUpdate = None ->
  findCommunity (param req) None None w = (Returned (Some c), w) ->
  isBanned c (ru_id (user req)) = false ->
  isMember c (ru_id (user req)) = false ->
  is_private (Community.visibility c) = false ->
  Community.isActive c = true ->
  let w' := after (joinCommunity req w) in
  exists mine,
    listed (getUserCommunities (user req) w')
    = map (project (Some ("admin", "username avatar"))
                   (Some "-bannedUsers -rules")) mine
    /\ (forall x, In x mine ->
          In x (communities w') /\ isMember x (ru_id (user req)) = true
          /\ Community.isActive x = true /\ Community.visibility x <> hidden)
    /\ (Community.visibility c = public ->
        In (joined (ru_id (user req)) c) mine)
    /\ (Community.visibility c = hidden ->
        forall x, In x mine -> Community._id x <> Community._id c).
Proof.
  intros F1 F2 F3 Hres Hban Hmem Hpriv Hact w'. subst w'.
  assert (Hin : In c (communities w)).
  { apply (proj2 (findCommunity_reads (param req) w)). now rewrite Hres. }
  rewrite (joinCommunity_run req w c F1 F2 F3 Hres Hban Hmem Hpriv).
  unfold after. cbn [snd].
  set (w' := set_users _ _).
  destruct (getUserCommunities_run (user req) w' F1) as [-> _].
  eexists. split; [reflexivity |].
  subst w'. cbn [communities set_users set_communities].
  set (c' := joined (ru_id (user req)) c).
  split; [| split].
  - intros x Hx. apply filter_In in Hx as [Hx Hj]. split; [exact Hx |].
    unfold joined_and_listed in Hj.
    apply andb_true_iff in Hj as [Hj Hv]. apply andb_true_iff in Hj as [Hm Ha].
    repeat split; auto. intros E. now rewrite E in Hv.
  - intros Hv. apply filter_In. split.
    + apply in_map_iff. exists c. split; [| exact Hin].
      unfold replace_community. subst c'. cbn. now rewrite String.eqb_refl.
    + unfold joined_and_listed.
      change (existsb _ (Community.members c'))
        with (isMember c' (ru_id (user req))).
      subst c'. rewrite isMember_joined. cbn. now rewrite Hact, Hv.
  - intros Hv x Hx Hid. apply filter_In in Hx as [Hx Hj].
    apply in_map_iff in Hx as (y & <- & _).
    unfold replace_community in Hid, Hj.
    destruct (String.eqb_spec (Community._id y) (Community._id c')) as [E | E].
    + unfold joined_and_listed in Hj. subst c'. cbn in Hj.
      rewrite Hv in Hj. now rewrite andb_false_r in Hj.
    + apply E. now rewrite Hid.
Qed.

(** X22.  [getRecommendedCommunities] for a user with interests and a store
    that answers lists the projections of at most ten stored communities,
    each public, active, without the user as member and sharing a category
    with the interests, largest [memberCount] first; no matching community
    left out has more members than one listed; and none is left out when
    at most ten match. *)
Theorem getRecommendedCommunities_top (req_user : ReqUser)
  (userInterests : list string) (w : World) :
  faults w CommunityFindOne = None ->
  userInterests <> [] ->
  let done := getRecommendedCommunities req_user userInterests w in
  let matching := List.filter (recommendable (ru_id req_user) userInterests)
                              (communities w) in
  exists chosen,
    listed done
    = map (project (Some ("admin", "username avatar"))
                   (Some "-bannedUsers -rules -members")) chosen
    /\ length chosen <= 10
    /\ (forall x, In x chosen ->
          In x (communities w)
          /\ isMember x (ru_id req_user) = false
          /\ Community.isActive x = true
          /\ Community.visibility x = public
          /\ exists tag, In tag (Community.categories x)
                         /\ In tag userInterests)
    /\ StronglySorted larger chosen
    /\ (forall x y, In x chosen -> In y matching -> ~ In y chosen ->
          (Community.memberCount y <= Community.memberCount x)%Z)
    /\ (length matching <= 10 -> forall y, In y matching -> In y chosen).
Proof.
  intros F Hne done matching. subst done.
  set (sorted := merge_sort larger matching).
  assert (Hrun : listed (getRecommendedCommunities req_user userInterests w)
                 = map (project (Some ("admin", "username avatar"))
                                (Some "-bannedUsers -rules -members"))
                       (take 10 sorted)).
  { unfold getRecommendedCommunities, try_catch, bind, Community_find, await,
      gets, ret, listed.
    destruct userInterests; [contradiction |]. now rewrite F. }
  assert (Hperm : sorted ≡ₚ matching) by apply merge_sort_Permutation.
  assert (Hsorted : StronglySorted larger sorted)
    by (apply StronglySorted_merge_sort; apply _).
  exists (take 10 sorted). split; [exact Hrun |].
  split; [rewrite length_take; lia |]. split; [| split; [| split]].
  - intros x Hx. apply list_elem_of_In in Hx.
    assert (Hm : x ∈ matching).
    { rewrite <- Hperm. eapply elem_of_sublist; [exact Hx | apply sublist_take]. }
    apply list_elem_of_In in Hm. apply filter_In in Hm as [Hin Hr].
    unfold recommendable in Hr.
    apply andb_true_iff in Hr as [Hr Hv]. apply andb_true_iff in Hr as [Hr Ha].
    apply andb_true_iff in Hr as [Ht Hm]. apply negb_true_iff in Hm.
    split; [exact Hin |]. split; [exact Hm |]. split; [exact Ha |]. split.
    + now destruct (Community.visibility x).
    + apply existsb_exists in Ht as (tag & Htag & Ht).
      apply existsb_exists in Ht as (tag' & Htag' & Ht).
      apply String.eqb_eq in Ht as <-. now exists tag.
  - rewrite <- (take_drop 10 sorted) in Hsorted.
    now apply StronglySorted_app_1_l in Hsorted.
  - intros x y Hx Hy Hny.
    assert (Hy' : y ∈ drop 10 sorted).
    { apply list_elem_of_In in Hy. rewrite <- Hperm in Hy.
      rewrite <- (take_drop 10 sorted) in Hy.
      apply elem_of_app in Hy as [Hy | Hy]; [| exact Hy].
      apply list_elem_of_In in Hy. contradiction. }
    rewrite <- (take_drop 10 sorted) in Hsorted.
    apply list_elem_of_In in Hx.
    exact (StronglySorted_app_1_elem_of _ _ _ _ _ Hsorted Hx Hy').
  - intros Hlen y Hy. apply list_elem_of_In. rewrite take_ge.
    + rewrite Hperm. now apply list_elem_of_In.
    + now rewrite Hperm.
Qed.
End Mine.

(** ** The further properties at the sample requests *)

Lemma joinCommunity_joins_witness :
  status <$> sent (joinCommunity (Sample.visit Sample.bob "bob" "rocq")
                     Sample.town) = Some 200%Z.
Proof.
  exact (proj1 (joinCommunity_joins (P := Sample.platform)
                  (Sample.visit Sample.bob "bob" "rocq") Sample.town
                  Sample.rocq eq_refl eq_refl eq_refl eq_refl eq_refl eq_refl
                  eq_refl)).
Defined.

Lemma createCommunity_creates_witness :
  communities (after (createCommunity Sample.founding Sample.town))
  = communities Sample.town ++ [founded Sample.founding Sample.town].
Proof.
  exact (proj1 (proj2 (createCommunity_creates (P := Sample.platform)
                         Sample.founding Sample.town eq_refl eq_refl eq_refl
                         eq_refl eq_refl eq_refl))).
Defined.

Lemma register_answers_witness :
  field "status"
    (json (mkResponse 500
             [("success", VBool false);
              ("message", VStr "fs.unlinkSync is not a function")]))
  = None.
Proof.
  exact (proj2 (register_answers (P := Sample.platform)
                  (Sample.registering (Some "erin") "abc" "hello")
                  Sample.staging _ eq_refl)).
Defined.

(** The sample registration passes every guard. *)
Lemma sample_acceptable :
  acceptable (P := Sample.platform)
    (Sample.registering (Some "erin") "secret1" "hello") Sample.portrait.
Proof.
  unfold acceptable.
  repeat match goal with |- _ /\ _ => split end;
    try reflexivity; try (cbn; lia); try (vm_compute; discriminate).
Defined.

Lemma register_enrols_witness :
  status <$> sent (register (Sample.registering (Some "erin") "secret1" "hello")
                     Sample.staging) = Some 201%Z.
Proof.
  exact (proj1 (register_enrols (P := Sample.platform)
                  (Sample.registering (Some "erin") "secret1" "hello")
                  Sample.portrait Sample.staging sample_acceptable
                  eq_refl eq_refl eq_refl eq_refl eq_refl)).
Defined.

Lemma verifyEmail_after_register_witness :
  sent (verifyEmail (Sample.verifying "erin@example.org" "123456")
          (after (register (Sample.registering (Some "erin") "secret1" "hello")
                    Sample.staging)))
  = Some (mkResponse 200 [("success", VBool true);
                          ("message", VStr "Email verified successfully")]).
Proof.
  refine (proj1 (verifyEmail_after_register (P := Sample.platform)
                  (Sample.registering (Some "erin") "secret1" "hello")
                  Sample.portrait Sample.staging
                  (Sample.verifying "erin@example.org" "123456")
                  sample_acceptable eq_refl eq_refl eq_refl eq_refl eq_refl
                  eq_refl eq_refl _)).
  discriminate.
Defined.

Lemma register_refusal_witness :
  sent (register (Sample.registering (Some "erin") "abc" "hello")
          Sample.staging)
  = Some (mkResponse 500
            [("success", VBool false);
             ("message", VStr "fs.unlinkSync is not a function")])
  /\ ~ In "uploads/p.png"
          (disk (after (register (Sample.registering (Some "erin") "abc" "hello")
                          Sample.staging))).
Proof.
  assert (R : refused (P := Sample.platform)
                (Sample.registering (Some "erin") "abc" "hello")
                Sample.portrait Sample.staging)
    by (left; cbn; lia).
  destruct (register_refusal (P := Sample.platform)
              (Sample.registering (Some "erin") "abc" "hello")
              Sample.portrait Sample.staging eq_refl eq_refl eq_refl eq_refl
              eq_refl eq_refl R eq_refl) as (H1 & _ & _ & H4).
  split; [exact H1 | exact H4].
Defined.

Lemma forgotPassword_outcomes_witness :
  (json <$> sent (forgotPassword (Sample.forgetting "dave@example.org")
                    Sample.lobby)) ≫= field "otp"
  = Some (VStr "123456").
Proof.
  exact (proj1 (forgotPassword_outcomes (Sample.forgetting "dave@example.org") Sample.lobby
                  eq_refl eq_refl eq_refl eq_refl)).
Defined.

Lemma resetPassword_once_witness :
  sent (resetPassword (Sample.resetting "654321" "newsecret")
          (after (resetPassword (Sample.resetting "654321" "newsecret")
                    Sample.lobby)))
  = Some invalid_otp.
Proof.
  assert (W : well_formed (Sample.resetting "654321" "newsecret"))
    by (repeat split; cbn; lia).
  exact (proj2 (proj2 (proj2
           (resetPassword_once (P := Sample.platform)
              (Sample.resetting "654321" "newsecret") Sample.lobby
              Sample.dave W eq_refl eq_refl eq_refl eq_refl)))).
Defined.

Lemma verifyEmail_refusal_changes_nothing_witness :
  after (verifyEmail (Sample.verifying "frank@example.org" "000000")
           Sample.porch) = Sample.porch.
Proof.
  exact (verifyEmail_refusal_changes_nothing (Sample.verifying "frank@example.org" "000000") Sample.porch
           (mkResponse 400 [("success", VBool false);
                            ("message", VStr "Invalid or expired OTP")])
           eq_refl (or_introl eq_refl)).
Defined.

Lemma resendOTP_replaces_code_witness :
  verifyOTP (User.set_otp (Some "123456") (Some (1000 + TEN_MINUTES)%Z)
               Sample.frank) "777777" 1000 = false.
Proof.
  refine (proj1 (proj2 (proj2 (proj2
            (resendOTP_replaces_code (Sample.forgetting "frank@example.org") Sample.porch
               Sample.frank eq_refl eq_refl eq_refl eq_refl eq_refl
               eq_refl)))) "777777" 1000%Z _).
  discriminate.
Defined.

Lemma createPost_stores_and_broadcasts_witness :
  users (after (createPost (Sample.posting Sample.rocq_id true) Sample.town))
  = users Sample.town
  /\ communities (after (createPost (Sample.posting Sample.rocq_id true)
                           Sample.town))
     = communities Sample.town.
Proof.
  exact (proj2 (proj2 (createPost_stores_and_broadcasts (P := Sample.platform)
                         (Sample.posting Sample.rocq_id true) Sample.town
                         eq_refl eq_refl eq_refl eq_refl eq_refl))).
Defined.

Lemma fileFilter_rejects_video_witness :
  fileFilter (P := Sample.node) Sample.clip "video/mp4" = false.
Proof.
  exact (fileFilter_rejects_video (P := Sample.node) Sample.clip "video/mp4"
           eq_refl).
Defined.

Lemma getCommunityInformation_visibility_witness :
  sent (getCommunityInformation "club"
          (Some (mkReqUser Sample.carol "carol")) Sample.town)
  = Some (mkResponse 403 [("success", VBool false);
                          ("message", VStr "This community is private.")]).
Proof.
  exact (proj2 (proj2 (getCommunityInformation_visibility
                         (P := Sample.platform) "club"
                         (Some (mkReqUser Sample.carol "carol")) Sample.town
                         Sample.club eq_refl)) eq_refl).
Defined.

Lemma getCommunityPosts_page_witness :
  NoDup (map pp_id
           (page_of (getCommunityPosts Sample.rocq_id 1 20 Sample.forum))).
Proof.
  exact (proj1 (proj2 (proj2 (proj2
           (getCommunityPosts_page Sample.rocq_id 1 20
              Sample.forum eq_refl))))).
Defined.

Lemma getCommunityPosts_covers_witness :
  exists page author,
    In (mkPopulated Sample.post_id Sample.hello author)
       (page_of (getCommunityPosts Sample.rocq_id page 20 Sample.forum)).
Proof.
  destruct (proj1 (proj2
              (getCommunityPosts_covers (P := Sample.platform) Sample.rocq_id
                 20 Sample.forum eq_refl eq_refl))
              Sample.post_id Sample.hello eq_refl eq_refl)
    as (page & author & _ & H).
  exists page, author. exact H.
Defined.

Lemma getUserCommunities_after_join_witness :
  In (project (Some ("admin", "username avatar")) (Some "-bannedUsers -rules")
        (joined Sample.bob Sample.rocq))
     (listed (getUserCommunities (mkReqUser Sample.bob "bob")
                (after (joinCommunity (Sample.visit Sample.bob "bob" "rocq")
                          Sample.town)))).
Proof.
  destruct (getUserCommunities_after_join (P := Sample.platform)
              (Sample.visit Sample.bob "bob" "rocq") Sample.town Sample.rocq
              eq_refl eq_refl eq_refl eq_refl eq_refl eq_refl eq_refl eq_refl)
    as (mine & E & _ & Hpub & _).
  change (user (Sample.visit Sample.bob "bob" "rocq"))
    with (mkReqUser Sample.bob "bob") in E.
  rewrite E. apply in_map. exact (Hpub eq_refl).
Defined.

Lemma getRecommendedCommunities_top_witness :
  (length (listed (getRecommendedCommunities (mkReqUser Sample.carol "carol")
                     ["tech"] Sample.town)) <= 10)%nat.
Proof.
  destruct (getRecommendedCommunities_top (P := Sample.platform)
              (mkReqUser Sample.carol "carol") ["tech"] Sample.town eq_refl
              ltac:(discriminate))
    as (chosen & E & L & _).
  rewrite E, length_map. exact L.
Defined.

Lemma prepare_interests_shape_witness :
  Forall (fun i => i <> "" /\ trimmed i
                   /\ ~ In ","%char (list_ascii_of_string i))
         (prepare_interests (P := Sample.platform)
            (Some (One " tech , ,art"))).
Proof.
  exact (prepare_interests_shape (P := Sample.platform) " tech , ,art"
           eq_refl).
Defined.
